(** * The Address family of capa

    A shallow embedding of [capa/features/address.py] (the Address classes
    and the sentinel [NO_ADDRESS]) and of [capa/render/json.py], together
    with the properties the specification states about them.

    Python integers are unbounded, so they are [Z].  A call either returns
    a value or raises; a rich-comparison method may also return
    [NotImplemented], which makes the operator consult the other operand.
    Assertions are executed (the interpreter's default, [__debug__] true). *)

From Stdlib Require Import ZArith List String Ascii Bool Lia.
From Stdlib Require Import DecimalString HexadecimalString DecimalZ HexadecimalZ.
Import ListNotations.
Open Scope Z_scope.

(** ** Results of a call *)

Inductive exn : Type :=
  | AssertionError
  | AttributeError
  | TypeError
  | KeyError
  | ValueError.

Inductive result (A : Type) : Type :=
  | Ok (a : A)
  | Raise (e : exn).
Arguments Ok {A} a.
Arguments Raise {A} e.

Definition bind {A B : Type} (r : result A) (k : A -> result B) : result B :=
  match r with
  | Ok a => k a
  | Raise e => Raise e
  end.

Notation "x <- r ;; k" := (bind r (fun x => k))
  (at level 61, r at next level, right associativity).
Notation "r ;;; k" := (bind r (fun _ => k))
  (at level 61, right associativity).

(** [assert cond] *)
Definition assert (cond : bool) : result unit :=
  if cond then Ok tt else Raise AssertionError.

(** Does the call return (rather than raise)? *)
Definition returns {A : Type} (r : result A) : bool :=
  match r with
  | Ok _ => true
  | Raise _ => false
  end.

(** What a rich-comparison method hands back to the operator. *)
Inductive answer : Type :=
  | Value (b : bool)
  | NotImplemented.

(** ** Data model *)

(** [ProcessAddress]: attributes [ppid] and [pid]. *)
Record ProcessAddress : Type := mkProcessAddress { ppid : Z; pid : Z }.

(** [ThreadAddress]: attributes [process] (annotated [ProcessAddress]) and [tid]. *)
Record ThreadAddress : Type := mkThreadAddress { process : ProcessAddress; tid : Z }.

(** [DynamicAddress]: attributes [id] and [return_address]. *)
Record DynamicAddress : Type := mkDynamicAddress { id : Z; return_address : Z }.

(** [DNTokenOffsetAddress]: attributes [token] and [offset]. *)
Record DNTokenOffsetAddress : Type := mkDNTokenOffsetAddress { token : Z; offset : Z }.

(** An instance of one of the concrete subclasses of [Address].  The four
    classes that also derive from [int] carry the integer they are. *)
Inductive Address : Type :=
  | Absolute (v : Z)                          (* AbsoluteVirtualAddress *)
  | Process (p : ProcessAddress)
  | Thread (t : ThreadAddress)
  | Dynamic (d : DynamicAddress)
  | Relative (v : Z)                          (* RelativeVirtualAddress *)
  | FileOffset (v : Z)                        (* FileOffsetAddress *)
  | DNToken (v : Z)                           (* DNTokenAddress *)
  | DNTokenOffset (d : DNTokenOffsetAddress)
  | NO_ADDRESS.                               (* the one _NoAddress() *)

(** The objects that meet in a comparison: plain integers and addresses. *)
Inductive value : Type :=
  | VInt (n : Z)
  | VAddr (a : Address).

Coercion VAddr : Address >-> value.

(** ** Classes *)

Inductive class : Type :=
  | cls_int
  | cls_AbsoluteVirtualAddress
  | cls_ProcessAddress
  | cls_ThreadAddress
  | cls_DynamicAddress
  | cls_RelativeVirtualAddress
  | cls_FileOffsetAddress
  | cls_DNTokenAddress
  | cls_DNTokenOffsetAddress
  | cls_NoAddress.

Definition class_eqb (c d : class) : bool :=
  match c, d with
  | cls_int, cls_int
  | cls_AbsoluteVirtualAddress, cls_AbsoluteVirtualAddress
  | cls_ProcessAddress, cls_ProcessAddress
  | cls_ThreadAddress, cls_ThreadAddress
  | cls_DynamicAddress, cls_DynamicAddress
  | cls_RelativeVirtualAddress, cls_RelativeVirtualAddress
  | cls_FileOffsetAddress, cls_FileOffsetAddress
  | cls_DNTokenAddress, cls_DNTokenAddress
  | cls_DNTokenOffsetAddress, cls_DNTokenOffsetAddress
  | cls_NoAddress, cls_NoAddress => true
  | _, _ => false
  end.

Definition class_of (a : Address) : class :=
  match a with
  | Absolute _ => cls_AbsoluteVirtualAddress
  | Process _ => cls_ProcessAddress
  | Thread _ => cls_ThreadAddress
  | Dynamic _ => cls_DynamicAddress
  | Relative _ => cls_RelativeVirtualAddress
  | FileOffset _ => cls_FileOffsetAddress
  | DNToken _ => cls_DNTokenAddress
  | DNTokenOffset _ => cls_DNTokenOffsetAddress
  | NO_ADDRESS => cls_NoAddress
  end.

Definition type (v : value) : class :=
  match v with
  | VInt _ => cls_int
  | VAddr a => class_of a
  end.

(** [class X(int, Address)] for four of the classes. *)
Definition derives_from_int (c : class) : bool :=
  match c with
  | cls_AbsoluteVirtualAddress | cls_RelativeVirtualAddress
  | cls_FileOffsetAddress | cls_DNTokenAddress => true
  | _ => false
  end.

Definition issubclass (c d : class) : bool :=
  class_eqb c d || (class_eqb d cls_int && derives_from_int c).

Definition isinstance (v : value) (c : class) : bool :=
  issubclass (type v) c.

(** Two addresses are of the same variant when they have the same class. *)
Definition same_variant (a b : Address) : bool :=
  class_eqb (class_of a) (class_of b).

(** The integer an instance of [int] (or of a subclass) is. *)
Definition as_int (v : value) : option Z :=
  match v with
  | VInt n => Some n
  | VAddr (Absolute n) | VAddr (Relative n)
  | VAddr (FileOffset n) | VAddr (DNToken n) => Some n
  | VAddr _ => None
  end.

(** ** Attribute access on an arbitrary object

    Only the class that sets an attribute in [__init__] has it. *)

Definition get_ppid (o : value) : result Z :=
  match o with VAddr (Process p) => Ok (ppid p) | _ => Raise AttributeError end.

Definition get_pid (o : value) : result Z :=
  match o with VAddr (Process p) => Ok (pid p) | _ => Raise AttributeError end.

Definition get_process (o : value) : result ProcessAddress :=
  match o with VAddr (Thread t) => Ok (process t) | _ => Raise AttributeError end.

Definition get_tid (o : value) : result Z :=
  match o with VAddr (Thread t) => Ok (tid t) | _ => Raise AttributeError end.

Definition get_id (o : value) : result Z :=
  match o with VAddr (Dynamic d) => Ok (id d) | _ => Raise AttributeError end.

Definition get_return_address (o : value) : result Z :=
  match o with VAddr (Dynamic d) => Ok (return_address d) | _ => Raise AttributeError end.

Definition get_token (o : value) : result Z :=
  match o with VAddr (DNTokenOffset d) => Ok (token d) | _ => Raise AttributeError end.

Definition get_offset (o : value) : result Z :=
  match o with VAddr (DNTokenOffset d) => Ok (offset d) | _ => Raise AttributeError end.

(** ** The built-in [int] *)

Module int.

(** [int.__eq__], [int.__lt__], [int.__gt__]: defined against instances
    of [int] only; anything else gets [NotImplemented]. *)
Definition __eq__ (self : Z) (other : value) : answer :=
  match as_int other with
  | Some n => Value (self =? n)
  | None => NotImplemented
  end.

Definition __lt__ (self : Z) (other : value) : answer :=
  match as_int other with
  | Some n => Value (self <? n)
  | None => NotImplemented
  end.

Definition __gt__ (self : Z) (other : value) : answer :=
  match as_int other with
  | Some n => Value (self >? n)
  | None => NotImplemented
  end.

(** [a == b] and [a < b] where both operands are plain integers. *)
Definition eq (a b : Z) : result bool := Ok (a =? b).
Definition lt (a b : Z) : result bool := Ok (a <? b).

(** [str(n)] and [format(n, "x")]: a minus sign if negative, then the
    digits, lowercase, without padding.  These are the numerals; that the
    decimal conversion is refused for very long integers is in [str],
    further down. *)
Definition __str__ (n : Z) : string :=
  DecimalString.NilZero.string_of_int (Z.to_int n).

Definition format_x (n : Z) : string :=
  HexadecimalString.NilZero.string_of_int (Z.to_hex_int n).

(** Reading a hexadecimal numeral back. *)
Definition parse_x (s : string) : option Z :=
  option_map Z.of_hex_int (HexadecimalString.NilZero.int_of_string s).

End int.

(** ** The built-in [tuple], at length two

  A tuple comparison walks both tuples to the first position whose items
  are not equal.  [==] is false there; [<] is [<] of the two items there.
  With no such position and equal lengths, [==] is true and [<] is false.
  (Items that are the same object count as equal without [==] being
  called; [==] is reflexive on every item compared here, so the shortcut
  changes no result.)  The item comparisons are parameters: integers for
  most fields, [ProcessAddress] for the first item of a thread's tuple. *)

Module tuple.
Section Pairs.
Context {A B : Type}.
Variables (eqA ltA : A -> A -> result bool) (eqB ltB : B -> B -> result bool).

Definition __eq__ (x y : A * B) : result bool :=
  e0 <- eqA (fst x) (fst y) ;;
  if negb e0 then Ok false else
  e1 <- eqB (snd x) (snd y) ;;
  if negb e1 then Ok false else
  Ok true.

Definition __lt__ (x y : A * B) : result bool :=
  e0 <- eqA (fst x) (fst y) ;;
  if negb e0 then ltA (fst x) (fst y) else
  e1 <- eqB (snd x) (snd y) ;;
  if negb e1 then ltB (snd x) (snd y) else
  Ok false.
End Pairs.
End tuple.

(** ** The built-in [hash]

  The classes only ever hash integers and tuples.  The hash of a tuple is
  computed from the hashes of its items, in order.  A [__hash__] that
  returns what the built-in returned is passed on by [hash] unchanged.
  The properties below hold for any such pair of functions. *)

Class PyHash : Type := {
  hash_int : Z -> Z;
  hash_tuple : list Z -> Z
}.

(** The 64-bit CPython functions: integers modulo the Mersenne prime
  [2^61 - 1] (never -1), tuples by the xxHash-style accumulator. *)
Module CPython.
Definition modulus : Z := 2 ^ 61 - 1.

Definition long_hash (n : Z) : Z :=
  let h := Z.sgn n * (Z.abs n mod modulus) in
  if h =? -1 then -2 else h.

Definition u64 (z : Z) : Z := z mod 2 ^ 64.
Definition s64 (z : Z) : Z := if u64 z <? 2 ^ 63 then u64 z else u64 z - 2 ^ 64.

Definition XXPRIME_1 : Z := 11400714785074694791.
Definition XXPRIME_2 : Z := 14029467366897019727.
Definition XXPRIME_5 : Z := 2870177450012600261.
Definition XXROTATE (x : Z) : Z := u64 (Z.lor (Z.shiftl x 31) (Z.shiftr x 33)).

Definition tuplehash (lanes : list Z) : Z :=
  let step acc lane :=
    u64 (XXROTATE (u64 (acc + u64 lane * XXPRIME_2)) * XXPRIME_1) in
  let acc := fold_left step lanes XXPRIME_5 in
  let acc := u64 (acc + Z.lxor (Z.of_nat (List.length lanes)) (Z.lxor XXPRIME_5 3527539)) in
  if acc =? 2 ^ 64 - 1 then 1546275796 else s64 acc.

Definition hash64 : PyHash :=
  {| hash_int := long_hash; hash_tuple := tuplehash |}.
End CPython.

(** ** The classes of [capa.features.address] *)

Open Scope string_scope.

Module AbsoluteVirtualAddress.

Definition __new__ (v : Z) : result Address :=
  assert (v >=? 0) ;;;
  Ok (Absolute v).

Definition __repr__ (self : Z) : string :=
  "absolute(0x" ++ int.format_x self ++ ")".

Definition __hash__ `{PyHash} (self : Z) : Z := hash_int self.

End AbsoluteVirtualAddress.

Module ProcessAddress.

(** [ProcessAddress(pid)] is [ProcessAddress(pid, ppid=0)]. *)
Definition __init__ (pid : Z) (ppid : Z) : result ProcessAddress :=
  assert (ppid >=? 0) ;;;
  assert (pid >? 0) ;;;
  Ok {| ppid := ppid; pid := pid |}.

Definition __repr__ (self : ProcessAddress) : string :=
  "process(" ++ (if ppid self >? 0 then "ppid: " ++ int.__str__ (ppid self) ++ ", " else "")
             ++ ("pid: " ++ int.__str__ (pid self)) ++ ")".

Definition __hash__ `{PyHash} (self : ProcessAddress) : Z :=
  hash_tuple [hash_int (ppid self); hash_int (pid self)].

Definition __eq__ (self : ProcessAddress) (other : value) : result bool :=
  assert (isinstance other cls_ProcessAddress) ;;;
  other_ppid <- get_ppid other ;;
  other_pid <- get_pid other ;;
  tuple.__eq__ int.eq int.eq (ppid self, pid self) (other_ppid, other_pid).

Definition __lt__ (self : ProcessAddress) (other : value) : result bool :=
  other_ppid <- get_ppid other ;;
  other_pid <- get_pid other ;;
  tuple.__lt__ int.eq int.lt int.eq int.lt (ppid self, pid self) (other_ppid, other_pid).

(** [p == q] and [p < q] for two instances of this class: the operands have
    the same class, so the operator calls the left one's method. *)
Definition eq (p q : ProcessAddress) : result bool := __eq__ p (VAddr (Process q)).
Definition lt (p q : ProcessAddress) : result bool := __lt__ p (VAddr (Process q)).

End ProcessAddress.

Module ThreadAddress.

Definition __init__ (process : ProcessAddress) (tid : Z) : result ThreadAddress :=
  assert (tid >=? 0) ;;;
  Ok {| process := process; tid := tid |}.

Definition __repr__ (self : ThreadAddress) : string :=
  "thread(tid: " ++ int.__str__ (tid self) ++ ")".

Definition __hash__ `{PyHash} (self : ThreadAddress) : Z :=
  hash_tuple [ProcessAddress.__hash__ (process self); hash_int (tid self)].

Definition __eq__ (self : ThreadAddress) (other : value) : result bool :=
  assert (isinstance other cls_ThreadAddress) ;;;
  other_process <- get_process other ;;
  other_tid <- get_tid other ;;
  tuple.__eq__ ProcessAddress.eq int.eq (process self, tid self) (other_process, other_tid).

Definition __lt__ (self : ThreadAddress) (other : value) : result bool :=
  other_process <- get_process other ;;
  other_tid <- get_tid other ;;
  tuple.__lt__ ProcessAddress.eq ProcessAddress.lt int.eq int.lt
    (process self, tid self) (other_process, other_tid).

End ThreadAddress.

Module DynamicAddress.

Definition __init__ (id_ : Z) (return_address : Z) : result DynamicAddress :=
  assert (id_ >=? 0) ;;;
  assert (return_address >=? 0) ;;;
  Ok {| id := id_; return_address := return_address |}.

Definition __repr__ (self : DynamicAddress) : string :=
  "dynamic(event: " ++ int.__str__ (id self) ++ ", returnaddress: 0x"
                    ++ int.format_x (return_address self) ++ ")".

Definition __hash__ `{PyHash} (self : DynamicAddress) : Z :=
  hash_tuple [hash_int (id self); hash_int (return_address self)].

Definition __eq__ (self : DynamicAddress) (other : value) : result bool :=
  other_id <- get_id other ;;
  other_return_address <- get_return_address other ;;
  tuple.__eq__ int.eq int.eq (id self, return_address self) (other_id, other_return_address).

Definition __lt__ (self : DynamicAddress) (other : value) : result bool :=
  other_id <- get_id other ;;
  other_return_address <- get_return_address other ;;
  tuple.__lt__ int.eq int.lt int.eq int.lt
    (id self, return_address self) (other_id, other_return_address).

End DynamicAddress.

Module RelativeVirtualAddress.

(** No [__new__] of its own: [int.__new__] takes any integer. *)
Definition __new__ (v : Z) : result Address := Ok (Relative v).

Definition __repr__ (self : Z) : string :=
  "relative(0x" ++ int.format_x self ++ ")".

Definition __hash__ `{PyHash} (self : Z) : Z := hash_int self.

End RelativeVirtualAddress.

Module FileOffsetAddress.

Definition __new__ (v : Z) : result Address :=
  assert (v >=? 0) ;;;
  Ok (FileOffset v).

Definition __repr__ (self : Z) : string :=
  "file(0x" ++ int.format_x self ++ ")".

Definition __hash__ `{PyHash} (self : Z) : Z := hash_int self.

End FileOffsetAddress.

Module DNTokenAddress.

Definition __new__ (token : Z) : result Address := Ok (DNToken token).

Definition __repr__ (self : Z) : string :=
  "token(0x" ++ int.format_x self ++ ")".

Definition __hash__ `{PyHash} (self : Z) : Z := hash_int self.

End DNTokenAddress.

Module DNTokenOffsetAddress.

Definition __init__ (token : Z) (offset : Z) : result DNTokenOffsetAddress :=
  assert (offset >=? 0) ;;;
  Ok {| token := token; offset := offset |}.

Definition __eq__ (self : DNTokenOffsetAddress) (other : value) : result bool :=
  other_token <- get_token other ;;
  other_offset <- get_offset other ;;
  tuple.__eq__ int.eq int.eq (token self, offset self) (other_token, other_offset).

Definition __lt__ (self : DNTokenOffsetAddress) (other : value) : result bool :=
  other_token <- get_token other ;;
  other_offset <- get_offset other ;;
  tuple.__lt__ int.eq int.lt int.eq int.lt
    (token self, offset self) (other_token, other_offset).

Definition __hash__ `{PyHash} (self : DNTokenOffsetAddress) : Z :=
  hash_tuple [hash_int (token self); hash_int (offset self)].

Definition __repr__ (self : DNTokenOffsetAddress) : string :=
  "token(0x" ++ int.format_x (token self) ++ ")+(0x" ++ int.format_x (offset self) ++ ")".

Definition __index__ (self : DNTokenOffsetAddress) : Z :=
  token self + offset self.

End DNTokenOffsetAddress.

Module _NoAddress.

Definition __eq__ (other : value) : result bool := Ok true.

Definition __lt__ (other : value) : result bool := Ok false.

Definition __hash__ `{PyHash} : Z := hash_int 0.

Definition __repr__ : string := "no address".

End _NoAddress.

Open Scope Z_scope.

(** ** Method lookup

    [type(self).__eq__(self, other)] and its siblings.  The four classes
    deriving from [int] define no comparison of their own and [int] comes
    before [Address] in their method resolution order.  No class defines
    [__gt__]: [int] supplies it for its subclasses, [object] (which answers
    [NotImplemented]) for the others. *)

Definition returned (r : result bool) : result answer :=
  b <- r ;; Ok (Value b).

Definition call_eq (self other : value) : result answer :=
  match self with
  | VInt n => Ok (int.__eq__ n other)
  | VAddr (Absolute n) | VAddr (Relative n)
  | VAddr (FileOffset n) | VAddr (DNToken n) => Ok (int.__eq__ n other)
  | VAddr (Process p) => returned (ProcessAddress.__eq__ p other)
  | VAddr (Thread t) => returned (ThreadAddress.__eq__ t other)
  | VAddr (Dynamic d) => returned (DynamicAddress.__eq__ d other)
  | VAddr (DNTokenOffset d) => returned (DNTokenOffsetAddress.__eq__ d other)
  | VAddr NO_ADDRESS => returned (_NoAddress.__eq__ other)
  end.

Definition call_lt (self other : value) : result answer :=
  match self with
  | VInt n => Ok (int.__lt__ n other)
  | VAddr (Absolute n) | VAddr (Relative n)
  | VAddr (FileOffset n) | VAddr (DNToken n) => Ok (int.__lt__ n other)
  | VAddr (Process p) => returned (ProcessAddress.__lt__ p other)
  | VAddr (Thread t) => returned (ThreadAddress.__lt__ t other)
  | VAddr (Dynamic d) => returned (DynamicAddress.__lt__ d other)
  | VAddr (DNTokenOffset d) => returned (DNTokenOffsetAddress.__lt__ d other)
  | VAddr NO_ADDRESS => returned (_NoAddress.__lt__ other)
  end.

Definition call_gt (self other : value) : result answer :=
  match as_int self with
  | Some n => Ok (int.__gt__ n other)
  | None => Ok NotImplemented
  end.

Definition hash `{PyHash} (v : value) : Z :=
  match v with
  | VInt n => hash_int n
  | VAddr (Absolute n) => AbsoluteVirtualAddress.__hash__ n
  | VAddr (Process p) => ProcessAddress.__hash__ p
  | VAddr (Thread t) => ThreadAddress.__hash__ t
  | VAddr (Dynamic d) => DynamicAddress.__hash__ d
  | VAddr (Relative n) => RelativeVirtualAddress.__hash__ n
  | VAddr (FileOffset n) => FileOffsetAddress.__hash__ n
  | VAddr (DNToken n) => DNTokenAddress.__hash__ n
  | VAddr (DNTokenOffset d) => DNTokenOffsetAddress.__hash__ d
  | VAddr NO_ADDRESS => _NoAddress.__hash__
  end.

Definition repr (a : Address) : string :=
  match a with
  | Absolute n => AbsoluteVirtualAddress.__repr__ n
  | Process p => ProcessAddress.__repr__ p
  | Thread t => ThreadAddress.__repr__ t
  | Dynamic d => DynamicAddress.__repr__ d
  | Relative n => RelativeVirtualAddress.__repr__ n
  | FileOffset n => FileOffsetAddress.__repr__ n
  | DNToken n => DNTokenAddress.__repr__ n
  | DNTokenOffset d => DNTokenOffsetAddress.__repr__ d
  | NO_ADDRESS => _NoAddress.__repr__
  end.

(** ** The operators [==] and [<]

    The right operand's method is tried first when its class is a proper
    subclass of the left operand's; otherwise the left operand's method is
    tried first, and the other one only on [NotImplemented].  When both
    decline, [==] compares identities (the operands are then two distinct
    objects, see [eq_never_falls_back]) and [<] raises [TypeError]. *)

Definition reflected_first (v w : value) : bool :=
  negb (class_eqb (type v) (type w)) && issubclass (type w) (type v).

Definition or_else (first second : result answer) (default : result bool) : result bool :=
  r <- first ;;
  match r with
  | Value b => Ok b
  | NotImplemented =>
      r' <- second ;;
      match r' with
      | Value b => Ok b
      | NotImplemented => default
      end
  end.

Definition op_eq (v w : value) : result bool :=
  if reflected_first v w
  then or_else (call_eq w v) (call_eq v w) (Ok false)
  else or_else (call_eq v w) (call_eq w v) (Ok false).

Definition op_lt (v w : value) : result bool :=
  if reflected_first v w
  then or_else (call_gt w v) (call_lt v w) (Raise TypeError)
  else or_else (call_lt v w) (call_gt w v) (Raise TypeError).

(** ** Construction *)

(** A constructor call with integer arguments (and, for a thread, an
    already constructed process). *)
Inductive call : Type :=
  | new_AbsoluteVirtualAddress (v : Z)
  | new_ProcessAddress (pid ppid : Z)
  | new_ThreadAddress (process : ProcessAddress) (tid : Z)
  | new_DynamicAddress (id_ return_address : Z)
  | new_RelativeVirtualAddress (v : Z)
  | new_FileOffsetAddress (v : Z)
  | new_DNTokenAddress (token : Z)
  | new_DNTokenOffsetAddress (token offset : Z).

Definition construct (c : call) : result Address :=
  match c with
  | new_AbsoluteVirtualAddress v => AbsoluteVirtualAddress.__new__ v
  | new_ProcessAddress pid ppid => p <- ProcessAddress.__init__ pid ppid ;; Ok (Process p)
  | new_ThreadAddress process tid => t <- ThreadAddress.__init__ process tid ;; Ok (Thread t)
  | new_DynamicAddress id_ ra => d <- DynamicAddress.__init__ id_ ra ;; Ok (Dynamic d)
  | new_RelativeVirtualAddress v => RelativeVirtualAddress.__new__ v
  | new_FileOffsetAddress v => FileOffsetAddress.__new__ v
  | new_DNTokenAddress token => DNTokenAddress.__new__ token
  | new_DNTokenOffsetAddress token offset =>
      d <- DNTokenOffsetAddress.__init__ token offset ;; Ok (DNTokenOffset d)
  end.

(** The values construction can produce: every assertion of the class (and
    of the process inside a thread) held. *)
Definition process_ok (p : ProcessAddress) : bool :=
  (ppid p >=? 0) && (pid p >? 0).

Definition constructed (a : Address) : bool :=
  match a with
  | Absolute v => v >=? 0
  | Process p => process_ok p
  | Thread t => process_ok (process t) && (tid t >=? 0)
  | Dynamic d => (id d >=? 0) && (return_address d >=? 0)
  | Relative _ => true
  | FileOffset v => v >=? 0
  | DNToken _ => true
  | DNTokenOffset d => offset d >=? 0
  | NO_ADDRESS => true
  end.

(** ** The specification's vocabulary *)

(** The fields that take part in a variant's equality, in the order the
    specification lists them; a nested address contributes its own tuple,
    an integer-backed variant its underlying integer. *)
#[local] Set Warnings "-register-all".
Inductive fields : Type :=
  | F_int (n : Z)
  | F_tuple (items : list fields).
#[local] Set Warnings "register-all".

Definition process_fields (p : ProcessAddress) : fields :=
  F_tuple [F_int (ppid p); F_int (pid p)].

Definition field_tuple (a : Address) : fields :=
  match a with
  | Absolute v | Relative v | FileOffset v | DNToken v => F_int v
  | Process p => process_fields p
  | Thread t => F_tuple [process_fields (process t); F_int (tid t)]
  | Dynamic d => F_tuple [F_int (id d); F_int (return_address d)]
  | DNTokenOffset d => F_tuple [F_int (token d); F_int (offset d)]
  | NO_ADDRESS => F_tuple []
  end.

(** Hashing a field tuple: integers by [hash_int], a tuple from the hashes
    of its items in order. *)
Fixpoint hash_fields `{PyHash} (f : fields) : Z :=
  match f with
  | F_int n => hash_int n
  | F_tuple items => hash_tuple (map hash_fields items)
  end.

(** Lexicographic order on pairs. *)
Definition lex {A B : Type} (ltA : A -> A -> Prop) (ltB : B -> B -> Prop)
    (x y : A * B) : Prop :=
  ltA (fst x) (fst y) \/ (fst x = fst y /\ ltB (snd x) (snd y)).

Definition process_before (p q : ProcessAddress) : Prop :=
  lex Z.lt Z.lt (ppid p, pid p) (ppid q, pid q).

(** The order within a variant: ppid before pid, process before tid, id
    before return address, token before offset, numeric for the
    integer-backed variants. *)
Definition before (a b : Address) : Prop :=
  match a, b with
  | Process p, Process q => process_before p q
  | Thread t, Thread u => lex process_before Z.lt (process t, tid t) (process u, tid u)
  | Dynamic d, Dynamic e =>
      lex Z.lt Z.lt (id d, return_address d) (id e, return_address e)
  | DNTokenOffset d, DNTokenOffset e =>
      lex Z.lt Z.lt (token d, offset d) (token e, offset e)
  | Absolute v, Absolute w | Relative v, Relative w
  | FileOffset v, FileOffset w | DNToken v, DNToken w => v < w
  | _, _ => False
  end.

(** Exactly one of three outcomes is true. *)
Definition exactly_one (x y z : bool) : Prop :=
  (x = true /\ y = false /\ z = false) \/
  (x = false /\ y = true /\ z = false) \/
  (x = false /\ y = false /\ z = true).

(** A constructor call breaks an invariant: a field constrained to be
    non-negative is negative, or [pid] is not positive. *)
Definition violates (c : call) : bool :=
  match c with
  | new_AbsoluteVirtualAddress v => v <? 0
  | new_ProcessAddress pid ppid => (ppid <? 0) || (pid <=? 0)
  | new_ThreadAddress _ tid => tid <? 0
  | new_DynamicAddress id_ ra => (id_ <? 0) || (ra <? 0)
  | new_RelativeVirtualAddress _ => false
  | new_FileOffsetAddress v => v <? 0
  | new_DNTokenAddress _ => false
  | new_DNTokenOffsetAddress _ offset => offset <? 0
  end.

(** The object a constructor call denotes when it succeeds. *)
Definition instance_of (c : call) : Address :=
  match c with
  | new_AbsoluteVirtualAddress v => Absolute v
  | new_ProcessAddress pid ppid => Process {| ppid := ppid; pid := pid |}
  | new_ThreadAddress process tid => Thread {| process := process; tid := tid |}
  | new_DynamicAddress id_ ra => Dynamic {| id := id_; return_address := ra |}
  | new_RelativeVirtualAddress v => Relative v
  | new_FileOffsetAddress v => FileOffset v
  | new_DNTokenAddress token => DNToken token
  | new_DNTokenOffsetAddress token offset =>
      DNTokenOffset {| token := token; offset := offset |}
  end.

(** The integer argument of a call to one of the four classes deriving from [int]. *)
Definition int_argument (c : call) : option Z :=
  match c with
  | new_AbsoluteVirtualAddress n | new_RelativeVirtualAddress n
  | new_FileOffsetAddress n | new_DNTokenAddress n => Some n
  | _ => None
  end.

Definition is_sentinel (a : Address) : bool :=
  match a with NO_ADDRESS => true | _ => false end.

(** What an [__eq__] of its own does with an operand of another class: the
    [isinstance] assertion of [ProcessAddress] and [ThreadAddress] fails,
    the attribute access of [DynamicAddress] and [DNTokenOffsetAddress]
    fails. *)
Definition foreign_operand_error (a : Address) : exn :=
  match a with
  | Process _ | Thread _ => AssertionError
  | _ => AttributeError
  end.

(** Outcome of [a == b] across two different non-sentinel variants: the
    integers are compared when both operands are integers; otherwise the
    first operand that is not an integer raises. *)
Definition cross_variant_eq (a b : Address) : result bool :=
  match as_int (VAddr a), as_int (VAddr b) with
  | Some n, Some m => Ok (n =? m)
  | None, _ => Raise (foreign_operand_error a)
  | Some _, None => Raise (foreign_operand_error b)
  end.

(** [needle] occurs in [s]. *)
Definition contains (s needle : string) : Prop :=
  exists before after, s = before ++ needle ++ after.

(** Characters of a lowercase hexadecimal numeral, sign included. *)
Definition lower_hex_char (c : ascii) : bool :=
  match c with
  | "0" | "1" | "2" | "3" | "4" | "5" | "6" | "7" | "8" | "9"
  | "a" | "b" | "c" | "d" | "e" | "f" | "-" => true
  | _ => false
  end%char.

Fixpoint all_chars (p : ascii -> bool) (s : string) : bool :=
  match s with
  | EmptyString => true
  | String c s' => p c && all_chars p s'
  end.

(** ** The result document ([capa/render/json.py])

    [render] is in the sources; [ResultDocument.from_capa] and the dump of
    the document are not, and are modelled from the specification. *)

#[local] Set Warnings "-register-all".
Inductive json : Type :=
  | JNull
  | JInt (n : Z)
  | JStr (s : string)
  | JList (items : list json)
  | JObj (members : list (string * json)).
#[local] Set Warnings "register-all".

Open Scope string_scope.

(** Modelled from the spec: the tag of the serialized form of an address
    (missing: the [Address] model of [capa/render/result_document.py]).
    The specification asks for a type-tagged form, variant name plus field
    values; the names are those of its data model. *)
Definition variant_name (a : Address) : string :=
  match a with
  | Absolute _ => "AbsoluteVirtualAddress"
  | Process _ => "ProcessAddress"
  | Thread _ => "ThreadAddress"
  | Dynamic _ => "DynamicAddress"
  | Relative _ => "RelativeVirtualAddress"
  | FileOffset _ => "FileOffsetAddress"
  | DNToken _ => "DNTokenAddress"
  | DNTokenOffset _ => "DNTokenOffsetAddress"
  | NO_ADDRESS => "NoAddress"
  end.

Fixpoint json_of_fields (f : fields) : json :=
  match f with
  | F_int n => JInt n
  | F_tuple items => JList (map json_of_fields items)
  end.

(** Modelled from the spec: the serialized form of an address, its variant
    name and its field values (missing: [Address.from_capa] of
    [capa/render/result_document.py]).  The sentinel has no fields: its
    value is absent. *)
Definition address_to_json (a : Address) : json :=
  JObj [("type", JStr (variant_name a));
        ("value", if is_sentinel a then JNull else json_of_fields (field_tuple a))].

(** A finding: the address it was observed at and the engine's account of
    the match, already structured. *)
Definition finding : Type := (Address * json)%type.

(** Match results: for each rule name, its findings. *)
Definition MatchResults : Type := list (string * list finding).

(** The rule set: for each rule name, the rule's description. *)
Definition RuleSet : Type := list (string * json).

Fixpoint lookup {V : Type} (key : string) (members : list (string * V)) : option V :=
  match members with
  | [] => None
  | (k, v) :: rest => if String.eqb key k then Some v else lookup key rest
  end.

Definition finding_to_json (f : finding) : json :=
  JList [address_to_json (fst f); snd f].

Fixpoint rule_matches (rules : RuleSet) (capabilities : MatchResults)
    : result (list (string * json)) :=
  match capabilities with
  | [] => Ok []
  | (rule_name, findings) :: rest =>
      rule <- match lookup rule_name rules with
              | Some rule => Ok rule
              | None => Raise KeyError
              end ;;
      entries <- rule_matches rules rest ;;
      Ok ((rule_name,
           JObj [("meta", rule); ("matches", JList (map finding_to_json findings))])
          :: entries)
  end.

(** Modelled from the spec: the result document built from the metadata,
    the rule set and the match results (missing:
    [ResultDocument.from_capa] of [capa/render/result_document.py]).  Each
    matched rule is looked up in the rule set and listed with its findings,
    each finding under its serialized address. *)
Definition from_capa (meta : json) (rules : RuleSet) (capabilities : MatchResults)
    : result json :=
  entries <- rule_matches rules capabilities ;;
  Ok (JObj [("meta", meta); ("rules", JObj entries)]).

(** Modelled from the spec: the dump of the document with
    [exclude_none=True] (missing: the model classes the dump belongs to).
    The emitted document omits the fields that are absent (null); the
    encoding of the document as text is not modelled. *)
Definition members_without_none (dump : json -> json)
    : list (string * json) -> list (string * json) :=
  fix go (members : list (string * json)) : list (string * json) :=
    match members with
    | [] => []
    | (k, JNull) :: rest => go rest
    | (k, v) :: rest => (k, dump v) :: go rest
    end.

Fixpoint exclude_none (j : json) : json :=
  match j with
  | JList items => JList (map exclude_none items)
  | JObj members => JObj (members_without_none exclude_none members)
  | _ => j
  end.

Definition model_dump_json (exclude_none_flag : bool) (document : json) : json :=
  if exclude_none_flag then exclude_none document else document.

(** [render(meta, rules, capabilities)] *)
Definition render (meta : json) (rules : RuleSet) (capabilities : MatchResults)
    : result json :=
  document <- from_capa meta rules capabilities ;;
  Ok (model_dump_json true document).

(** Every matched rule is a rule of the rule set. *)
Definition well_formed (rules : RuleSet) (capabilities : MatchResults) : bool :=
  forallb (fun entry => match lookup (fst entry) rules with
                        | Some _ => true
                        | None => false
                        end) capabilities.

(** No field of any object in the document is null. *)
Definition members_not_null (check : json -> bool) : list (string * json) -> bool :=
  fix go (members : list (string * json)) : bool :=
    match members with
    | [] => true
    | (k, JNull) :: rest => false
    | (k, v) :: rest => check v && go rest
    end.

Fixpoint no_null_field (j : json) : bool :=
  match j with
  | JList items => forallb no_null_field items
  | JObj members => members_not_null no_null_field members
  | _ => true
  end.

(** Reading an address back from its serialized form. *)
Definition address_of_json (j : json) : option Address :=
  match j with
  | JObj members =>
      match lookup "type" members, lookup "value" members with
      | Some (JStr "AbsoluteVirtualAddress"), Some (JInt v) => Some (Absolute v)
      | Some (JStr "RelativeVirtualAddress"), Some (JInt v) => Some (Relative v)
      | Some (JStr "FileOffsetAddress"), Some (JInt v) => Some (FileOffset v)
      | Some (JStr "DNTokenAddress"), Some (JInt v) => Some (DNToken v)
      | Some (JStr "ProcessAddress"), Some (JList [JInt ppid; JInt pid]) =>
          Some (Process {| ppid := ppid; pid := pid |})
      | Some (JStr "ThreadAddress"),
        Some (JList [JList [JInt ppid; JInt pid]; JInt tid]) =>
          Some (Thread {| process := {| ppid := ppid; pid := pid |}; tid := tid |})
      | Some (JStr "DynamicAddress"), Some (JList [JInt id_; JInt ra]) =>
          Some (Dynamic {| id := id_; return_address := ra |})
      | Some (JStr "DNTokenOffsetAddress"), Some (JList [JInt token; JInt offset]) =>
          Some (DNTokenOffset {| token := token; offset := offset |})
      | Some (JStr "NoAddress"), None => Some NO_ADDRESS
      | _, _ => None
      end
  | _ => None
  end.

(** The addresses of the findings listed in a document, rule by rule;
    [None] where a listed address cannot be read back. *)
Definition finding_address (j : json) : option Address :=
  match j with
  | JList (address :: _) => address_of_json address
  | _ => None
  end.

Definition entry_addresses (entry : string * json) : string * list (option Address) :=
  (fst entry,
   match snd entry with
   | JObj members =>
       match lookup "matches" members with
       | Some (JList findings) => map finding_address findings
       | _ => []
       end
   | _ => []
   end).

Definition document_addresses (document : json) : list (string * list (option Address)) :=
  match document with
  | JObj members =>
      match lookup "rules" members with
      | Some (JObj entries) => map entry_addresses entries
      | _ => []
      end
  | _ => []
  end.

(** The addresses of the match results, rule by rule. *)
Definition capability_addresses (capabilities : MatchResults)
    : list (string * list (option Address)) :=
  map (fun entry => (fst entry, map (fun f : finding => Some (fst f)) (snd entry)))
      capabilities.

Open Scope Z_scope.

(** Structural induction on documents, through the lists they nest. *)
Section JsonInduction.
Variable P : json -> Prop.
Hypothesis P_null : P JNull.
Hypothesis P_int : forall n, P (JInt n).
Hypothesis P_str : forall s, P (JStr s).
Hypothesis P_list : forall items, Forall P items -> P (JList items).
Hypothesis P_obj : forall members, Forall (fun m => P (snd m)) members -> P (JObj members).

Fixpoint json_induction (j : json) : P j :=
  match j with
  | JNull => P_null
  | JInt n => P_int n
  | JStr s => P_str s
  | JList items =>
      P_list items
        ((fix each (l : list json) : Forall P l :=
            match l with
            | [] => Forall_nil P
            | x :: l' => Forall_cons x (json_induction x) (each l')
            end) items)
  | JObj members =>
      P_obj members
        ((fix each (l : list (string * json)) : Forall (fun m => P (snd m)) l :=
            match l with
            | [] => Forall_nil _
            | (k, v) :: l' =>
                Forall_cons (P := fun m => P (snd m)) (k, v) (json_induction v) (each l')
            end) members)
  end.
End JsonInduction.

(** ** Hashing and rendering as calls

    The interpreter refuses to convert an integer to a decimal string when
    the integer has more than [int_max_str_digits] decimal digits, the sign
    not counted (4300 unless reconfigured): [str(n)], and so [f"{n}"],
    raises [ValueError].  Formatting in hexadecimal has no such limit. *)

Definition int_max_str_digits : Z := 4300.

(** [n] has more than [int_max_str_digits] decimal digits. *)
Definition too_long (n : Z) : bool := 10 ^ int_max_str_digits <=? Z.abs n.

(** [str(n)], the call. *)
Definition str (n : Z) : result string :=
  if too_long n then Raise ValueError else Ok (int.__str__ n).

(** [repr(a)], the call: the [__repr__] of the class of [a], with the
    decimal conversions of [ProcessAddress.__repr__] (the ppid when
    positive, then the pid), [ThreadAddress.__repr__] (the tid) and
    [DynamicAddress.__repr__] (the event id) as calls of [str].  The other
    classes format in hexadecimal only, or nothing. *)
Definition call_repr (a : Address) : result string :=
  match a with
  | Process p =>
      ppid_part <- (if ppid p >? 0
                    then s <- str (ppid p) ;; Ok ("ppid: " ++ s ++ ", ")%string
                    else Ok ""%string) ;;
      pid_part <- (s <- str (pid p) ;; Ok ("pid: " ++ s)%string) ;;
      Ok ("process(" ++ ppid_part ++ pid_part ++ ")")%string
  | Thread t =>
      s <- str (tid t) ;;
      Ok ("thread(tid: " ++ s ++ ")")%string
  | Dynamic d =>
      s <- str (id d) ;;
      Ok ("dynamic(event: " ++ s ++ ", returnaddress: 0x"
            ++ int.format_x (return_address d) ++ ")")%string
  | _ => Ok (repr a)
  end.

(** [hash(v)], the call: every class defines [__hash__], and each
    [__hash__] only applies the built-in to integers and to tuples of
    hashable items, which does not raise. *)
Definition call_hash `{PyHash} (v : value) : result Z := Ok (hash v).

(** The fields an address prints in decimal. *)
Definition decimal_fields (a : Address) : list Z :=
  match a with
  | Process p => (if ppid p >? 0 then [ppid p] else []) ++ [pid p]
  | Thread t => [tid t]
  | Dynamic d => [id d]
  | _ => []
  end.

(** * Properties *)

(** ** Sanity of the embedding *)

Example repr_process_without_ppid :
  repr (Process {| ppid := 0; pid := 5 |}) = "process(pid: 5)"%string.
Proof. reflexivity. Qed.

Example repr_process_with_ppid :
  repr (Process {| ppid := 4; pid := 5 |}) = "process(ppid: 4, pid: 5)"%string.
Proof. reflexivity. Qed.

Example repr_dynamic :
  repr (Dynamic {| id := 12; return_address := 255 |})
  = "dynamic(event: 12, returnaddress: 0xff)"%string.
Proof. reflexivity. Qed.

Example repr_absolute : repr (Absolute 4096) = "absolute(0x1000)"%string.
Proof. reflexivity. Qed.

Example cpython_hash_of_a_pair :
  @hash_tuple CPython.hash64 [@hash_int CPython.hash64 1; @hash_int CPython.hash64 2]
  = -3550055125485641917.
Proof. reflexivity. Qed.

Example cpython_hash_of_minus_one : @hash_int CPython.hash64 (-1) = -2.
Proof. reflexivity. Qed.

Example absolute_below_sentinel_is_a_type_error :
  op_lt (Absolute 5) NO_ADDRESS = Raise TypeError.
Proof. reflexivity. Qed.

Example process_below_dynamic_is_an_attribute_error :
  op_lt (Process {| ppid := 0; pid := 1 |}) (Dynamic {| id := 0; return_address := 0 |})
  = Raise AttributeError.
Proof. reflexivity. Qed.

Example sorting_key_of_absolute_is_numeric :
  op_lt (Absolute 0x2) (Absolute 0x10) = Ok true
  /\ op_lt (Absolute 0x10) (Absolute 0x100) = Ok true
  /\ op_lt (Absolute 0x100) (Absolute 0x2) = Ok false.
Proof. repeat split. Qed.

Lemma eq_never_falls_back (v w : value) :
  call_eq v w = Ok NotImplemented -> call_eq w v <> Ok NotImplemented.
Proof.
  destruct v as [n|[]], w as [m|[]]; cbn; try discriminate;
    unfold returned, bind;
    repeat match goal with
           | |- context [match ?x with _ => _ end] => destruct x; try discriminate
           end.
Qed.

(** ** Tuples of integers *)

Ltac unfold_methods :=
  unfold op_eq, op_lt, or_else, call_eq, call_lt, call_gt, returned,
    ProcessAddress.__eq__, ProcessAddress.__lt__,
    ThreadAddress.__eq__, ThreadAddress.__lt__,
    DynamicAddress.__eq__, DynamicAddress.__lt__,
    DNTokenOffsetAddress.__eq__, DNTokenOffsetAddress.__lt__,
    _NoAddress.__eq__, _NoAddress.__lt__,
    int.__eq__, int.__lt__, int.__gt__;
  cbn -[Z.eqb Z.ltb Z.gtb tuple.__eq__ tuple.__lt__].

Ltac Z_cases :=
  repeat match goal with
         | |- context [?x =? ?y] => destruct (Z.eqb_spec x y)
         | |- context [?x <? ?y] => destruct (Z.ltb_spec x y)
         | H : context [?x =? ?y] |- _ => destruct (Z.eqb_spec x y)
         | H : context [?x <? ?y] |- _ => destruct (Z.ltb_spec x y)
         end.

Lemma tuple_eq_ints (a b c d : Z) :
  tuple.__eq__ int.eq int.eq (a, b) (c, d) = Ok ((a =? c) && (b =? d)).
Proof.
  unfold tuple.__eq__, int.eq; cbn.
  destruct (a =? c), (b =? d); reflexivity.
Qed.

Lemma tuple_lt_ints (a b c d : Z) :
  tuple.__lt__ int.eq int.lt int.eq int.lt (a, b) (c, d)
  = Ok ((a <? c) || ((a =? c) && (b <? d))).
Proof.
  unfold tuple.__lt__, int.eq, int.lt; cbn.
  destruct (Z.eqb_spec a c), (Z.eqb_spec b d), (Z.ltb_spec a c), (Z.ltb_spec b d);
    cbn; try reflexivity; lia.
Qed.

Lemma process_eq_spec (p q : ProcessAddress) :
  ProcessAddress.eq p q = Ok ((ppid p =? ppid q) && (pid p =? pid q)).
Proof.
  unfold ProcessAddress.eq, ProcessAddress.__eq__; cbn. apply tuple_eq_ints.
Qed.

Lemma process_lt_spec (p q : ProcessAddress) :
  ProcessAddress.lt p q
  = Ok ((ppid p <? ppid q) || ((ppid p =? ppid q) && (pid p <? pid q))).
Proof.
  unfold ProcessAddress.lt, ProcessAddress.__lt__; cbn. apply tuple_lt_ints.
Qed.

(** The operators agree with the direct calls used inside
    [ThreadAddress] for its [process] item. *)
Lemma op_eq_process (p q : ProcessAddress) :
  op_eq (Process p) (Process q) = ProcessAddress.eq p q.
Proof.
  rewrite process_eq_spec.
  unfold op_eq, or_else, tuple.__eq__, int.eq; cbn.
  destruct (_ =? _), (_ =? _); reflexivity.
Qed.

Lemma op_lt_process (p q : ProcessAddress) :
  op_lt (Process p) (Process q) = ProcessAddress.lt p q.
Proof.
  rewrite process_lt_spec.
  unfold op_lt, or_else, tuple.__lt__, int.eq, int.lt; cbn.
  repeat (Z_cases; cbn); try reflexivity; lia.
Qed.

Lemma op_eq_ints (a b : Z) : op_eq (VInt a) (VInt b) = int.eq a b.
Proof. reflexivity. Qed.

Lemma op_lt_ints (a b : Z) : op_lt (VInt a) (VInt b) = int.lt a b.
Proof. reflexivity. Qed.

(** ** The operators within one variant, as boolean formulas *)

Lemma thread_eq_spec (t u : ThreadAddress) :
  op_eq (Thread t) (Thread u)
  = Ok ((ppid (process t) =? ppid (process u)) && (pid (process t) =? pid (process u))
        && (tid t =? tid u)).
Proof.
  unfold op_eq, or_else, call_eq, returned, ThreadAddress.__eq__, tuple.__eq__, int.eq.
  cbn -[Z.eqb ProcessAddress.eq].
  rewrite process_eq_spec; cbn -[Z.eqb].
  destruct (_ =? _), (_ =? _), (_ =? _); reflexivity.
Qed.

Lemma thread_lt_spec (t u : ThreadAddress) :
  op_lt (Thread t) (Thread u)
  = Ok (if (ppid (process t) =? ppid (process u)) && (pid (process t) =? pid (process u))
        then tid t <? tid u
        else (ppid (process t) <? ppid (process u))
             || ((ppid (process t) =? ppid (process u))
                 && (pid (process t) <? pid (process u)))).
Proof.
  unfold op_lt, or_else, call_lt, call_gt, returned, ThreadAddress.__lt__,
    tuple.__lt__, int.eq, int.lt.
  cbn -[Z.eqb Z.ltb ProcessAddress.eq ProcessAddress.lt].
  rewrite process_eq_spec; cbn -[Z.eqb Z.ltb ProcessAddress.lt].
  destruct (Z.eqb_spec (ppid (process t)) (ppid (process u))),
    (Z.eqb_spec (pid (process t)) (pid (process u)));
    cbn -[Z.eqb Z.ltb ProcessAddress.lt]; rewrite ?process_lt_spec;
    repeat (Z_cases; cbn); try reflexivity; lia.
Qed.

Lemma fields_pair_inj (a b c d : Z) :
  F_tuple [F_int a; F_int b] = F_tuple [F_int c; F_int d] <-> a = c /\ b = d.
Proof.
  split; [intros H; injection H; auto | intros [-> ->]; reflexivity].
Qed.

Lemma op_eq_same_variant (a b : Address) :
  same_variant a b = true ->
  exists r, op_eq a b = Ok r /\ (r = true <-> field_tuple a = field_tuple b).
Proof.
  destruct a as [v|p|t|d|v|v|v|d|], b as [w|q|u|e|w|w|w|e|];
    try discriminate; intros _.
  1, 5, 6, 7: (exists (v =? w); split; [reflexivity|];
               rewrite Z.eqb_eq; split; [now intros -> | now injection 1]).
  - rewrite op_eq_process, process_eq_spec. eexists; split; [reflexivity|].
    unfold field_tuple, process_fields.
    rewrite fields_pair_inj, andb_true_iff, !Z.eqb_eq. tauto.
  - rewrite thread_eq_spec. eexists; split; [reflexivity|].
    unfold field_tuple, process_fields.
    rewrite !andb_true_iff, !Z.eqb_eq. split.
    + intros [[-> ->] ->]; reflexivity.
    + intros H; injection H; auto.
  - unfold_methods. rewrite tuple_eq_ints. eexists; split; [reflexivity|].
    cbn. rewrite fields_pair_inj, andb_true_iff, !Z.eqb_eq. tauto.
  - unfold_methods. rewrite tuple_eq_ints. eexists; split; [reflexivity|].
    cbn. rewrite fields_pair_inj, andb_true_iff, !Z.eqb_eq. tauto.
  - exists true. split; [reflexivity | tauto].
Qed.

Lemma field_tuple_inj (a b : Address) :
  same_variant a b = true -> field_tuple a = field_tuple b -> a = b.
Proof.
  destruct a as [v|[]|[[] ?]|[]|v|v|v|[]|], b as [w|[]|[[] ?]|[]|w|w|w|[]|];
    try discriminate; intros _; cbn; intros H;
    try (injection H; intros; subst); reflexivity.
Qed.


(** ** The order within a variant *)

Lemma process_eq_iff (p q : ProcessAddress) :
  p = q <-> ppid p = ppid q /\ pid p = pid q.
Proof.
  destruct p, q; cbn. split; [now injection 1 | now intros [-> ->]].
Qed.

Lemma op_lt_same_variant (a b : Address) :
  same_variant a b = true ->
  exists r, op_lt a b = Ok r /\ (r = true <-> before a b).
Proof.
  destruct a as [v|p|t|d|v|v|v|d|], b as [w|q|u|e|w|w|w|e|];
    try discriminate; intros _.
  1, 5, 6, 7: (exists (v <? w); split; [reflexivity | apply Z.ltb_lt]).
  - rewrite op_lt_process, process_lt_spec. eexists; split; [reflexivity|].
    unfold before, process_before, lex; cbn.
    rewrite orb_true_iff, andb_true_iff, Z.eqb_eq, !Z.ltb_lt. tauto.
  - rewrite thread_lt_spec. eexists; split; [reflexivity|].
    unfold before, process_before, lex; cbn [fst snd].
    rewrite process_eq_iff.
    repeat (Z_cases; cbn); (split; [try discriminate | try reflexivity]); lia.
  - unfold_methods. rewrite tuple_lt_ints. eexists; split; [reflexivity|].
    unfold lex; cbn.
    rewrite orb_true_iff, andb_true_iff, Z.eqb_eq, !Z.ltb_lt. tauto.
  - unfold_methods. rewrite tuple_lt_ints. eexists; split; [reflexivity|].
    unfold lex; cbn.
    rewrite orb_true_iff, andb_true_iff, Z.eqb_eq, !Z.ltb_lt. tauto.
  - exists false. split; [reflexivity|]. cbn. split; [discriminate | tauto].
Qed.

Ltac order_arith :=
  unfold before, process_before, lex in *; cbn [fst snd] in *;
  rewrite ?process_eq_iff in *; try lia.

Lemma before_same_variant (a b : Address) : before a b -> same_variant a b = true.
Proof.
  destruct a, b; cbn; intros H; try reflexivity; contradiction.
Qed.

Lemma before_irrefl (a : Address) : ~ before a a.
Proof.
  destruct a; order_arith; tauto.
Qed.

Lemma before_trans (a b c : Address) : before a b -> before b c -> before a c.
Proof.
  intros Hab Hbc.
  pose proof (before_same_variant _ _ Hab) as Sab.
  pose proof (before_same_variant _ _ Hbc) as Sbc.
  destruct a, b; try discriminate; destruct c; try discriminate; order_arith.
Qed.

Lemma trichotomy_same_variant (a b : Address) :
  same_variant a b = true ->
  exists l g e,
    op_lt a b = Ok l /\ op_lt b a = Ok g /\ op_eq a b = Ok e /\ exactly_one l g e.
Proof.
  intros S.
  destruct (op_lt_same_variant a b S) as (l & Hl & Il).
  assert (S' : same_variant b a = true)
    by (destruct a, b; try discriminate; reflexivity).
  destruct (op_lt_same_variant b a S') as (g & Hg & Ig).
  destruct (op_eq_same_variant a b S) as (e & He & Ie).
  exists l, g, e. repeat split; trivial.
  assert (T : (before a b /\ ~ before b a /\ field_tuple a <> field_tuple b)
           \/ (~ before a b /\ before b a /\ field_tuple a <> field_tuple b)
           \/ (~ before a b /\ ~ before b a /\ field_tuple a = field_tuple b)).
  { clear - S.
    destruct a as [v|p|t|d|v|v|v|d|], b as [w|q|u|f|w|w|w|f|]; try discriminate;
      unfold field_tuple, process_fields;
      try (assert (E : forall x y : Z, F_int x = F_int y <-> x = y)
             by (split; [now injection 1 | now intros ->]); rewrite E);
      rewrite ?fields_pair_inj; order_arith.
    - assert (E : F_tuple [F_tuple [F_int (ppid (process t)); F_int (pid (process t))];
                           F_int (tid t)]
                  = F_tuple [F_tuple [F_int (ppid (process u)); F_int (pid (process u))];
                             F_int (tid u)]
                  <-> ppid (process t) = ppid (process u)
                      /\ pid (process t) = pid (process u) /\ tid t = tid u).
      { split; [intros H; injection H; auto | intros (-> & -> & ->); reflexivity]. }
      rewrite E. lia.
    - tauto. }
  unfold exactly_one.
  destruct l, g, e; intuition congruence.
Qed.

(** * The claims *)

(** C1: the sentinel on the left.  For every address [x], [NO_ADDRESS]
    itself included, [NO_ADDRESS == x] returns true and [NO_ADDRESS < x]
    returns false. *)
Theorem C1_no_address_left (x : Address) :
  op_eq NO_ADDRESS x = Ok true /\ op_lt NO_ADDRESS x = Ok false.
Proof.
  split; destruct x; reflexivity.
Qed.

(** C3: within one variant, [a == b] returns a boolean, and that boolean is
    true exactly when the field tuples are equal: (ppid, pid), (process,
    tid), (id, return_address), (token, offset), or the underlying integer. *)
Theorem C3_equality_is_fieldwise (a b : Address) (S : same_variant a b = true) :
  exists r, op_eq a b = Ok r /\ (r = true <-> field_tuple a = field_tuple b).
Proof.
  exact (op_eq_same_variant a b S).
Qed.

Lemma C3_equality_is_fieldwise_witness :
  exists r,
    op_eq (Thread {| process := {| ppid := 1; pid := 7 |}; tid := 3 |})
          (Thread {| process := {| ppid := 1; pid := 7 |}; tid := 4 |}) = Ok r
    /\ (r = true <->
        field_tuple (Thread {| process := {| ppid := 1; pid := 7 |}; tid := 3 |})
        = field_tuple (Thread {| process := {| ppid := 1; pid := 7 |}; tid := 4 |})).
Proof.
  apply C3_equality_is_fieldwise. reflexivity.
Defined.

(** C4: within each variant [<] is a strict total order consistent with
    [==].  It returns a boolean that is true exactly for the lexicographic
    order of the field tuples (numeric order for the integer-backed
    variants); it is irreflexive and transitive; exactly one of [a < b],
    [b < a], [a == b] is true.  [ProcessAddress(pid=5, ppid=0)] is below
    [ProcessAddress(pid=5, ppid=1)], and two threads with the same tid and
    different processes compare as their processes do. *)
Theorem C4_strict_total_order (a b c : Address)
    (Sab : same_variant a b = true) (Sbc : same_variant b c = true) :
  (exists r, op_lt a b = Ok r /\ (r = true <-> before a b))
  /\ op_lt a a = Ok false
  /\ (op_lt a b = Ok true -> op_lt b c = Ok true -> op_lt a c = Ok true)
  /\ (exists l g e,
        op_lt a b = Ok l /\ op_lt b a = Ok g /\ op_eq a b = Ok e /\ exactly_one l g e)
  /\ op_lt (Process {| ppid := 0; pid := 5 |}) (Process {| ppid := 1; pid := 5 |}) = Ok true
  /\ (forall t u : ThreadAddress,
        tid t = tid u -> process t <> process u ->
        op_lt (Thread t) (Thread u) = op_lt (Process (process t)) (Process (process u))).
Proof.
  assert (Saa : same_variant a a = true) by (destruct a; reflexivity).
  assert (Sac : same_variant a c = true)
    by (destruct a, b; try discriminate; destruct c; try discriminate; reflexivity).
  split; [now apply op_lt_same_variant|].
  split.
  { destruct (op_lt_same_variant a a Saa) as (r & Hr & Ir).
    rewrite Hr. f_equal. destruct r; [|reflexivity].
    exfalso. apply (before_irrefl a). now apply Ir. }
  split.
  { intros Hab Hbc.
    destruct (op_lt_same_variant a b Sab) as (r1 & H1 & I1).
    destruct (op_lt_same_variant b c Sbc) as (r2 & H2 & I2).
    destruct (op_lt_same_variant a c Sac) as (r3 & H3 & I3).
    rewrite H3. f_equal. apply I3.
    apply before_trans with b; [apply I1 | apply I2]; congruence. }
  split; [now apply trichotomy_same_variant|].
  split; [reflexivity|].
  intros t u Htid Hproc.
  rewrite thread_lt_spec, op_lt_process, process_lt_spec.
  rewrite process_eq_iff in Hproc.
  repeat (Z_cases; cbn); try reflexivity; lia.
Qed.

Lemma C4_strict_total_order_witness :
  op_lt (Dynamic {| id := 1; return_address := 9 |})
        (Dynamic {| id := 2; return_address := 0 |}) = Ok true.
Proof.
  destruct (C4_strict_total_order
              (Dynamic {| id := 1; return_address := 9 |})
              (Dynamic {| id := 1; return_address := 10 |})
              (Dynamic {| id := 2; return_address := 0 |})
              eq_refl eq_refl) as (_ & _ & T & _).
  apply T; reflexivity.
Defined.

(** C5: within one variant, [a == b] implies [hash(a) == hash(b)]; the hash
    of a variant is the hash of the very field tuple its equality compares,
    in the same order; and [NO_ADDRESS] hashes as the integer zero does. *)
Theorem C5_hash_agrees_with_equality `{PyHash} (a b : Address)
    (S : same_variant a b = true) (E : op_eq a b = Ok true) :
  hash a = hash b
  /\ hash a = (if is_sentinel a then hash (VInt 0) else hash_fields (field_tuple a))
  /\ hash NO_ADDRESS = hash (VInt 0).
Proof.
  split; [|split; [destruct a; reflexivity | reflexivity]].
  destruct (op_eq_same_variant a b S) as (r & Hr & Ir).
  assert (r = true) as -> by congruence.
  f_equal. f_equal. apply field_tuple_inj; [assumption | now apply Ir].
Qed.

Lemma C5_hash_agrees_with_equality_witness :
  @hash CPython.hash64 (Process {| ppid := 3; pid := 4 |})
  = @hash CPython.hash64 (Process {| ppid := 3; pid := 4 |})
  /\ @hash CPython.hash64 (Process {| ppid := 3; pid := 4 |})
     = @hash_fields CPython.hash64 (F_tuple [F_int 3; F_int 4])
  /\ @hash CPython.hash64 NO_ADDRESS = 0.
Proof.
  apply (@C5_hash_agrees_with_equality CPython.hash64
           (Process {| ppid := 3; pid := 4 |}) (Process {| ppid := 3; pid := 4 |}));
    reflexivity.
Defined.

(** C2 as stated fails: across two different non-sentinel variants [==] can
    raise (the [isinstance] assertion of [ProcessAddress.__eq__] fails on a
    thread) and can return true (two integer-backed variants holding the
    same integer). *)
Lemma C2_cross_variant_counterexample :
  ~ (forall a b : Address,
       constructed a = true -> constructed b = true ->
       is_sentinel a = false -> is_sentinel b = false ->
       same_variant a b = false ->
       op_eq a b = Ok false).
Proof.
  intros claim.
  specialize (claim (Process {| ppid := 0; pid := 1 |})
                    (Thread {| process := {| ppid := 0; pid := 1 |}; tid := 0 |})
                    eq_refl eq_refl eq_refl eq_refl eq_refl).
  discriminate claim.
Qed.

(** C2, amended: across two different non-sentinel variants, [a == b]
    returns only when both operands are integer-backed, and then it returns
    whether their integers are equal; in every other pairing it raises,
    with the error of the first operand that is not integer-backed
    ([AssertionError] for a process or a thread, [AttributeError] for a
    dynamic or a token-offset address). *)
Theorem C2_cross_variant_equality (a b : Address)
    (Na : is_sentinel a = false) (Nb : is_sentinel b = false)
    (D : same_variant a b = false) :
  op_eq a b = cross_variant_eq a b.
Proof.
  destruct a, b; try discriminate; reflexivity.
Qed.

Lemma C2_cross_variant_equality_witness :
  op_eq (Absolute 5) (Relative 5) = Ok true
  /\ op_eq (FileOffset 5) (Dynamic {| id := 5; return_address := 0 |})
     = Raise AttributeError.
Proof.
  split.
  - exact (C2_cross_variant_equality (Absolute 5) (Relative 5) eq_refl eq_refl eq_refl).
  - exact (C2_cross_variant_equality
             (FileOffset 5) (Dynamic {| id := 5; return_address := 0 |})
             eq_refl eq_refl eq_refl).
Defined.

(** ** Construction *)

Lemma construct_spec (c : call) :
  construct c = if violates c then Raise AssertionError else Ok (instance_of c).
Proof.
  destruct c; cbn;
    unfold AbsoluteVirtualAddress.__new__, ProcessAddress.__init__,
      ThreadAddress.__init__, DynamicAddress.__init__, FileOffsetAddress.__new__,
      DNTokenOffsetAddress.__init__, assert; cbn;
    repeat (match goal with
            | |- context [?x >=? ?y] => destruct (Z.geb_spec x y)
            | |- context [?x >? ?y] => destruct (Z.gtb_spec x y)
            | |- context [?x <? ?y] => destruct (Z.ltb_spec x y)
            | |- context [?x <=? ?y] => destruct (Z.leb_spec x y)
            end; cbn); try reflexivity; lia.
Qed.

(** What construction returns passed every assertion. *)
Lemma construct_constructed (c : call) (a : Address) :
  match c with new_ThreadAddress p _ => process_ok p = true | _ => True end ->
  construct c = Ok a -> constructed a = true.
Proof.
  rewrite construct_spec. intros P.
  destruct (violates c) eqn:V; [discriminate|]. injection 1 as <-.
  destruct c; cbn in *; try rewrite P; cbn; try reflexivity;
    unfold process_ok; cbn;
    rewrite ?andb_true_iff, ?Z.geb_le, ?Z.gtb_lt;
    rewrite ?orb_false_iff, ?Z.ltb_ge, ?Z.leb_gt in V; lia.
Qed.

(** [call_repr] in one formula: it raises exactly when a field printed in
    decimal is too long, and otherwise returns the rendering [repr]. *)
Lemma call_repr_spec (a : Address) :
  call_repr a = if existsb too_long (decimal_fields a)
                then Raise ValueError else Ok (repr a).
Proof.
  destruct a as [v|p|t|d|v|v|v|d|]; try reflexivity;
    unfold call_repr, decimal_fields, str; cbn -[too_long].
  - destruct (ppid p >? 0); cbn -[too_long];
      [destruct (too_long (ppid p)); cbn -[too_long]; [reflexivity|]|];
      destruct (too_long (pid p)); reflexivity.
  - destruct (too_long (tid t)); reflexivity.
  - destruct (too_long (id d)); reflexivity.
Qed.

(** The smallest integer with 4301 decimal digits, as a thread id. *)
Lemma limit_nonneg : 0 <= 10 ^ int_max_str_digits.
Proof.
  apply Z.pow_nonneg. discriminate.
Qed.

Lemma too_long_at_limit : too_long (10 ^ int_max_str_digits) = true.
Proof.
  unfold too_long. apply Z.leb_le.
  rewrite Z.abs_eq by apply limit_nonneg. apply Z.le_refl.
Qed.

Lemma thread_constructed (p : ProcessAddress) (n : Z) :
  process_ok p = true -> 0 <= n ->
  constructed (Thread {| process := p; tid := n |}) = true.
Proof.
  intros P N. cbn. rewrite P. now apply Z.geb_le.
Qed.

Lemma thread_rendering_refused (p : ProcessAddress) (n : Z) :
  too_long n = true ->
  call_repr (Thread {| process := p; tid := n |}) = Raise ValueError.
Proof.
  intros L. unfold call_repr, str. cbn [tid]. now rewrite L.
Qed.

(** C6 as stated fails in its last part, for two operations: two
    constructed values of different variants exist whose comparison raises
    (the [isinstance] guard), and a constructed thread exists whose
    rendering raises (its tid, ten to the power 4300, has 4301 decimal
    digits). *)
Lemma C6_operations_counterexample :
  ~ (forall a b : Address,
       constructed a = true -> constructed b = true ->
       returns (op_eq a b) = true /\ returns (op_lt a b) = true)
  /\ ~ (forall a : Address, constructed a = true -> returns (call_repr a) = true).
Proof.
  split.
  - intros claim.
    destruct (claim (Process {| ppid := 0; pid := 1 |})
                    (Dynamic {| id := 0; return_address := 0 |})
                    eq_refl eq_refl) as [E _].
    discriminate E.
  - intros claim.
    pose proof (claim (Thread {| process := {| ppid := 0; pid := 1 |};
                                 tid := 10 ^ int_max_str_digits |})
                      (thread_constructed {| ppid := 0; pid := 1 |} _
                         eq_refl limit_nonneg)) as R.
    rewrite (thread_rendering_refused {| ppid := 0; pid := 1 |} _ too_long_at_limit) in R.
    discriminate R.
Qed.

(** C6, amended: construction raises the assertion error exactly when a
    field constrained to be non-negative is negative or [pid] is not
    positive, and otherwise returns the instance; [FileOffsetAddress(-1)]
    fails and [FileOffsetAddress(0)] succeeds; between two values of the
    same variant neither [==] nor [<] raises; hashing does not raise;
    rendering raises ([ValueError]) exactly when a field it prints in
    decimal (the ppid when positive, the pid, the tid, the event id) has
    more than 4300 decimal digits, and otherwise returns the rendering. *)
Theorem C6_construction_and_operations `{PyHash} (c : call) (a b : Address)
    (S : same_variant a b = true) :
  (construct c = Raise AssertionError <-> violates c = true)
  /\ (violates c = false <-> construct c = Ok (instance_of c))
  /\ construct (new_FileOffsetAddress (-1)) = Raise AssertionError
  /\ construct (new_FileOffsetAddress 0) = Ok (FileOffset 0)
  /\ returns (op_eq a b) = true
  /\ returns (op_lt a b) = true
  /\ call_hash a = Ok (hash a)
  /\ (call_repr a = Raise ValueError <-> existsb too_long (decimal_fields a) = true)
  /\ (existsb too_long (decimal_fields a) = false <-> call_repr a = Ok (repr a)).
Proof.
  rewrite construct_spec, call_repr_spec.
  split; [destruct (violates c); split; congruence|].
  split; [destruct (violates c); split; congruence|].
  split; [reflexivity|]. split; [reflexivity|].
  destruct (op_eq_same_variant a b S) as (e & -> & _).
  destruct (op_lt_same_variant a b S) as (l & -> & _).
  split; [reflexivity|]. split; [reflexivity|]. split; [reflexivity|].
  destruct (existsb too_long (decimal_fields a)); split; split; congruence.
Qed.

Lemma C6_construction_and_operations_witness :
  (construct (new_ProcessAddress 0 3) = Raise AssertionError
   <-> violates (new_ProcessAddress 0 3) = true)
  /\ returns (op_eq (Thread {| process := {| ppid := 0; pid := 1 |}; tid := 2 |})
                    (Thread {| process := {| ppid := 0; pid := 2 |}; tid := 2 |})) = true
  /\ call_repr (Thread {| process := {| ppid := 0; pid := 1 |}; tid := 2 |})
     = Ok "thread(tid: 2)"%string.
Proof.
  destruct (@C6_construction_and_operations CPython.hash64
              (new_ProcessAddress 0 3)
              (Thread {| process := {| ppid := 0; pid := 1 |}; tid := 2 |})
              (Thread {| process := {| ppid := 0; pid := 2 |}; tid := 2 |})
              eq_refl) as (V & _ & _ & _ & E & _ & _ & _ & R).
  split; [assumption|]. split; [assumption|].
  apply R. vm_compute. reflexivity.
Defined.

(** C8: for every integer [n] the constructor accepts, an instance of
    one of the four integer-backed classes equals the plain integer [n]
    (from either side), hashes as [n] does, and equals any instance of
    these classes built from the same [n]. *)
Theorem C8_integer_backed_equal_their_integer `{PyHash} (c : call) (n : Z) (a : Address)
    (I : int_argument c = Some n) (K : construct c = Ok a) :
  op_eq a (VInt n) = Ok true
  /\ op_eq (VInt n) a = Ok true
  /\ hash a = hash (VInt n)
  /\ (forall (c' : call) (b : Address),
        int_argument c' = Some n -> construct c' = Ok b -> op_eq a b = Ok true).
Proof.
  assert (shape : forall c0 a0, int_argument c0 = Some n -> construct c0 = Ok a0 ->
                    a0 = instance_of c0 /\ as_int (VAddr a0) = Some n
                    /\ derives_from_int (class_of a0) = true).
  { intros c0 a0 I0 K0. rewrite construct_spec in K0.
    destruct (violates c0); [discriminate|]. injection K0 as <-.
    destruct c0; try discriminate; injection I0 as ->; repeat split. }
  destruct (shape c a I K) as (-> & _ & _).
  repeat split.
  1-3: destruct c; try discriminate; injection I as ->;
       unfold op_eq, or_else; cbn; rewrite ?Z.eqb_refl; reflexivity.
  intros c' b I' K'. destruct (shape c' b I' K') as (-> & _ & _).
  destruct c; try discriminate; injection I as ->;
    destruct c'; try discriminate; injection I' as ->;
    unfold op_eq, or_else; cbn; rewrite ?Z.eqb_refl; reflexivity.
Qed.

Lemma C8_integer_backed_equal_their_integer_witness :
  op_eq (FileOffset 512) (VInt 512) = Ok true
  /\ op_eq (VInt 512) (FileOffset 512) = Ok true
  /\ @hash CPython.hash64 (FileOffset 512) = 512.
Proof.
  destruct (@C8_integer_backed_equal_their_integer CPython.hash64
              (new_FileOffsetAddress 512) 512 (FileOffset 512) eq_refl eq_refl)
    as (L & R & Hh & _).
  repeat split; trivial.
Defined.

(** C10: the sentinel on the right.  [x == NO_ADDRESS] returns true when
    [x] is one of the four integer-backed variants ([int.__eq__] declines
    and the sentinel's own [__eq__] answers); it raises when [x] is a
    process or a thread (the [isinstance] assertion) or a dynamic or a
    token-offset address (the missing attribute). *)
Theorem C10_no_address_right (x : Address) :
  op_eq x NO_ADDRESS =
  match x with
  | Absolute _ | Relative _ | FileOffset _ | DNToken _ => Ok true
  | Process _ | Thread _ => Raise AssertionError
  | Dynamic _ | DNTokenOffset _ => Raise AttributeError
  | NO_ADDRESS => Ok true
  end.
Proof.
  destruct x; reflexivity.
Qed.

(** ** Hexadecimal numerals *)

Lemma append_assoc (s t u : string) : ((s ++ t) ++ u = s ++ (t ++ u))%string.
Proof.
  induction s as [|ch s IH]; cbn; [reflexivity | now rewrite IH].
Qed.

Lemma format_x_parse (n : Z) : int.parse_x (int.format_x n) = Some n.
Proof.
  unfold int.parse_x, int.format_x.
  rewrite HexadecimalString.NilZero.isi.
  - cbn. now rewrite HexadecimalZ.of_to.
  - destruct n as [|p|p]; cbn; try discriminate.
    intros E; injection E. apply HexadecimalPos.Unsigned.to_uint_nonnil.
  - destruct n as [|p|p]; cbn; try discriminate.
    intros E; injection E. apply HexadecimalPos.Unsigned.to_uint_nonnil.
Qed.

Lemma digits_lowercase (d : Hexadecimal.uint) :
  all_chars lower_hex_char (HexadecimalString.NilEmpty.string_of_uint d) = true.
Proof.
  induction d; cbn; trivial.
Qed.

Lemma format_x_lowercase (n : Z) : all_chars lower_hex_char (int.format_x n) = true.
Proof.
  unfold int.format_x, HexadecimalString.NilZero.string_of_int,
    HexadecimalString.NilZero.string_of_uint.
  destruct (Z.to_hex_int n) as [d|d]; destruct d eqn:E; try reflexivity;
    rewrite <- E; cbn [all_chars lower_hex_char andb]; apply digits_lowercase.
Qed.

(** C7: the integer conversion of a token-offset address is [token +
    offset]; its rendering contains the hexadecimal forms of both fields,
    which are lowercase numerals that read back as the fields; for token
    [0x06000001] and offset [0x10] the index is [0x06000011]. *)
Theorem C7_token_offset_index_and_rendering (d : DNTokenOffsetAddress) :
  DNTokenOffsetAddress.__index__ d = token d + offset d
  /\ contains (repr (DNTokenOffset d)) (int.format_x (token d))
  /\ contains (repr (DNTokenOffset d)) (int.format_x (offset d))
  /\ int.parse_x (int.format_x (token d)) = Some (token d)
  /\ int.parse_x (int.format_x (offset d)) = Some (offset d)
  /\ all_chars lower_hex_char (int.format_x (token d)) = true
  /\ all_chars lower_hex_char (int.format_x (offset d)) = true
  /\ DNTokenOffsetAddress.__index__ {| token := 0x06000001; offset := 0x10 |} = 0x06000011
  /\ repr (DNTokenOffset {| token := 0x06000001; offset := 0x10 |})
     = "token(0x6000001)+(0x10)"%string.
Proof.
  split; [reflexivity|].
  split.
  { exists "token(0x"%string, (")+(0x" ++ int.format_x (offset d) ++ ")")%string.
    reflexivity. }
  split.
  { exists ("token(0x" ++ int.format_x (token d) ++ ")+(0x")%string, ")"%string.
    cbn [repr]. unfold DNTokenOffsetAddress.__repr__.
    now rewrite !append_assoc. }
  repeat split; auto using format_x_parse, format_x_lowercase.
Qed.

(** ** The result document *)


Lemma exclude_none_no_null_field (j : json) : no_null_field (exclude_none j) = true.
Proof.
  induction j using json_induction; cbn; trivial.
  - rewrite forallb_forall. intros x Hx.
    apply in_map_iff in Hx as (y & <- & Hy).
    rewrite Forall_forall in H. now apply H.
  - induction H as [|[k v] members Hv Hrest IH]; cbn; [reflexivity|].
    cbn in Hv. destruct v; cbn in *; rewrite ?Hv; auto.
Qed.

Lemma address_roundtrip (a : Address) :
  address_of_json (exclude_none (address_to_json a)) = Some a.
Proof.
  destruct a as [v|[]|[[] ?]|[]|v|v|v|[]|]; reflexivity.
Qed.

Lemma rule_matches_well_formed (rules : RuleSet) (capabilities : MatchResults) :
  well_formed rules capabilities = true ->
  exists entries,
    rule_matches rules capabilities = Ok entries
    /\ map entry_addresses (members_without_none exclude_none entries)
       = capability_addresses capabilities.
Proof.
  induction capabilities as [|[name findings] rest IH]; cbn.
  - intros _. exists []. split; reflexivity.
  - destruct (lookup name rules) as [rule|]; [|discriminate].
    cbn. intros W. destruct (IH W) as (entries & -> & E). cbn.
    eexists; split; [reflexivity|]. cbn. rewrite E. f_equal.
    unfold entry_addresses; cbn. f_equal.
    destruct rule; cbn; rewrite !map_map; apply map_ext;
      intros [a detail]; exact (address_roundtrip a).
Qed.

(** C9: for well-formed input (every matched rule is in the rule set;
    findings at any address variant or at [NO_ADDRESS]) [render] returns a
    document and does not raise; no field of the document is null; every
    finding's address is in the document, in a form from which the variant
    and its fields are read back. *)
Theorem C9_render_result_document (meta : json) (rules : RuleSet)
    (capabilities : MatchResults) (W : well_formed rules capabilities = true) :
  (exists document,
      render meta rules capabilities = Ok document
      /\ no_null_field document = true
      /\ document_addresses document = capability_addresses capabilities)
  /\ (forall a : Address, address_of_json (exclude_none (address_to_json a)) = Some a).
Proof.
  split; [|exact address_roundtrip].
  destruct (rule_matches_well_formed rules capabilities W) as (entries & R & E).
  unfold render, from_capa. rewrite R. cbn [bind model_dump_json].
  eexists. split; [reflexivity|].
  split; [apply exclude_none_no_null_field|].
  destruct meta; exact E.
Qed.

Lemma C9_render_result_document_witness :
  exists document,
    render (JObj [("sample", JNull)])
           [("rule", JObj [("name", JStr "rule"); ("namespace", JNull)])]
           [("rule", [(FileOffset 0x200, JNull); (NO_ADDRESS, JNull)])]
    = Ok document
    /\ no_null_field document = true
    /\ document_addresses document
       = [("rule", [Some (FileOffset 0x200); Some NO_ADDRESS])]%string.
Proof.
  exact (proj1 (C9_render_result_document
                  (JObj [("sample", JNull)])
                  [("rule", JObj [("name", JStr "rule"); ("namespace", JNull)])]
                  [("rule", [(FileOffset 0x200, JNull); (NO_ADDRESS, JNull)])]
                  eq_refl)).
Defined.

(** * Further properties of the code *)

(** ** Equality *)

Lemma same_variant_sym (a b : Address) : same_variant a b = same_variant b a.
Proof.
  destruct a, b; reflexivity.
Qed.

Lemma same_variant_trans (a b c : Address) :
  same_variant a b = true -> same_variant b c = true -> same_variant a c = true.
Proof.
  destruct a, b; try discriminate; destruct c; try discriminate; reflexivity.
Qed.

Lemma op_eq_sym_same_variant (a b : Address) :
  same_variant a b = true -> op_eq a b = op_eq b a.
Proof.
  intros S.
  destruct (op_eq_same_variant a b S) as (r & -> & I).
  rewrite same_variant_sym in S.
  destruct (op_eq_same_variant b a S) as (r' & -> & I').
  f_equal. destruct r, r'; trivial.
  - symmetry. apply I'. symmetry. now apply I.
  - apply I. symmetry. now apply I'.
Qed.

(** X1: within one variant (ProcessAddress.__eq__ and its siblings) [==]
    is an equivalence relation: reflexive, symmetric and transitive. *)
Theorem X1_equality_is_an_equivalence (a b c : Address)
    (Sab : same_variant a b = true) (Sbc : same_variant b c = true) :
  op_eq a a = Ok true
  /\ op_eq a b = op_eq b a
  /\ (op_eq a b = Ok true -> op_eq b c = Ok true -> op_eq a c = Ok true).
Proof.
  split.
  { assert (Saa : same_variant a a = true) by (destruct a; reflexivity).
    destruct (op_eq_same_variant a a Saa) as (r & -> & I).
    f_equal. now apply I. }
  split; [now apply op_eq_sym_same_variant|].
  intros Eab Ebc.
  destruct (op_eq_same_variant a b Sab) as (r1 & H1 & I1).
  destruct (op_eq_same_variant b c Sbc) as (r2 & H2 & I2).
  destruct (op_eq_same_variant a c (same_variant_trans a b c Sab Sbc)) as (r3 & -> & I3).
  f_equal. apply I3.
  transitivity (field_tuple b); [apply I1 | apply I2]; congruence.
Qed.

Lemma X1_equality_is_an_equivalence_witness :
  op_eq (Dynamic {| id := 3; return_address := 64 |})
        (Dynamic {| id := 3; return_address := 65 |})
  = op_eq (Dynamic {| id := 3; return_address := 65 |})
          (Dynamic {| id := 3; return_address := 64 |}).
Proof.
  destruct (X1_equality_is_an_equivalence
              (Dynamic {| id := 3; return_address := 64 |})
              (Dynamic {| id := 3; return_address := 65 |})
              (Dynamic {| id := 3; return_address := 66 |})
              eq_refl eq_refl) as (_ & S & _).
  exact S.
Defined.

(** X2: among addresses other than the sentinel, of the same or of
    different variants, [a == b] returns exactly when [b == a] returns, and
    then with the same boolean.  (When both raise, the errors can differ.) *)
Theorem X2_equality_symmetric_when_it_returns (a b : Address)
    (Na : is_sentinel a = false) (Nb : is_sentinel b = false) :
  returns (op_eq a b) = returns (op_eq b a)
  /\ (forall r : bool, op_eq a b = Ok r <-> op_eq b a = Ok r).
Proof.
  destruct (same_variant a b) eqn:S.
  - rewrite (op_eq_sym_same_variant a b S). split; [reflexivity | tauto].
  - destruct a as [v| | | |v|v|v| |], b as [w| | | |w|w|w| |]; try discriminate;
      cbn; rewrite ?(Z.eqb_sym w v);
      (split; [reflexivity | intros r; split; (discriminate || trivial)]).
Qed.

Lemma X2_equality_symmetric_when_it_returns_witness :
  returns (op_eq (Process {| ppid := 0; pid := 1 |})
                 (Dynamic {| id := 0; return_address := 0 |}))
  = returns (op_eq (Dynamic {| id := 0; return_address := 0 |})
                   (Process {| ppid := 0; pid := 1 |})).
Proof.
  exact (proj1 (X2_equality_symmetric_when_it_returns
                  (Process {| ppid := 0; pid := 1 |})
                  (Dynamic {| id := 0; return_address := 0 |}) eq_refl eq_refl)).
Defined.

(** X3: whenever [v == w] is true for two objects other than the sentinel
    (plain integers, addresses of the same or of different variants),
    [hash(v) == hash(w)]: the classes keep the contract of [__hash__]
    across the integer-backed variants and plain integers too. *)
Theorem X3_equal_objects_hash_equally `{PyHash} (v w : value)
    (Nv : v <> VAddr NO_ADDRESS) (Nw : w <> VAddr NO_ADDRESS)
    (E : op_eq v w = Ok true) :
  hash v = hash w.
Proof.
  assert (ints : forall n m : Z, Ok (n =? m) = Ok true -> n = m)
    by (intros n m Q; injection Q as Q; now apply Z.eqb_eq).
  destruct v as [n|a], w as [m|b].
  - apply ints in E. now subst.
  - destruct b; cbn in E; try discriminate; try congruence;
      apply ints in E; now subst.
  - destruct a; cbn in E; try discriminate; try congruence;
      apply ints in E; now subst.
  - destruct (same_variant a b) eqn:S.
    + destruct (op_eq_same_variant a b S) as (r & Hr & Ir).
      assert (r = true) as -> by congruence.
      do 2 f_equal. apply field_tuple_inj; [assumption | now apply Ir].
    + destruct a, b; try discriminate S; try congruence;
        cbn in E; try discriminate E; apply ints in E; now subst.
Qed.

Lemma X3_equal_objects_hash_equally_witness :
  @hash CPython.hash64 (VInt 4096) = @hash CPython.hash64 (Absolute 4096).
Proof.
  apply (@X3_equal_objects_hash_equally CPython.hash64 (VInt 4096) (Absolute 4096));
    [discriminate | discriminate | reflexivity].
Defined.

(** X4: the sentinel does not keep that contract.  With the 64-bit
    CPython hash, every integer-backed address holding an integer between 1
    and [2^61 - 2] equals [NO_ADDRESS] from both sides and yet hashes
    differently from it ([_NoAddress.__hash__] is [hash(0)]). *)
Theorem X4_sentinel_equal_but_hashed_apart (a : Address) (v : Z)
    (I : as_int (VAddr a) = Some v) (R : 0 < v < CPython.modulus) :
  op_eq NO_ADDRESS a = Ok true
  /\ op_eq a NO_ADDRESS = Ok true
  /\ @hash CPython.hash64 NO_ADDRESS <> @hash CPython.hash64 a.
Proof.
  assert (L : CPython.long_hash v = v).
  { unfold CPython.long_hash.
    rewrite Z.abs_eq, Z.mod_small, (proj2 (Z.sgn_pos_iff v)) by lia.
    destruct (Z.eqb_spec (1 * v) (-1)); lia. }
  destruct a; try discriminate; injection I as ->;
    (split; [reflexivity | split; [reflexivity|]]);
    cbn; rewrite L; cbn; lia.
Qed.

Lemma X4_sentinel_equal_but_hashed_apart_witness :
  op_eq NO_ADDRESS (FileOffset 512) = Ok true
  /\ op_eq (FileOffset 512) NO_ADDRESS = Ok true
  /\ @hash CPython.hash64 NO_ADDRESS <> @hash CPython.hash64 (FileOffset 512).
Proof.
  apply (X4_sentinel_equal_but_hashed_apart (FileOffset 512) 512);
    [reflexivity | unfold CPython.modulus; lia].
Defined.

(** ** Ordering *)

(** X5: how [<] fails.  It raises [TypeError] exactly when the left operand
    is an integer (plain or integer-backed) and the right one is not; it
    raises [AttributeError] exactly when the left operand is a process,
    thread, dynamic or token-offset address and the right operand is of
    another class (their [__lt__] has no [isinstance] guard, so it never
    raises [AssertionError]); in every other case it returns. *)
Theorem X5_ordering_errors (v w : value) :
  (op_lt v w = Raise TypeError <-> as_int v <> None /\ as_int w = None)
  /\ (op_lt v w = Raise AttributeError <->
      as_int v = None /\ v <> VAddr NO_ADDRESS /\ class_eqb (type v) (type w) = false)
  /\ (returns (op_lt v w) = false ->
      op_lt v w = Raise TypeError \/ op_lt v w = Raise AttributeError).
Proof.
  destruct v as [n|[]], w as [m|[]];
    try match goal with
        | |- context [op_lt (VAddr ?a) (VAddr ?b)] =>
            destruct (op_lt_same_variant a b eq_refl) as (r & E & _); rewrite E
        end;
    cbn; (repeat split); intros;
    repeat match goal with
           | H : _ /\ _ |- _ => destruct H
           end;
    try discriminate; try congruence; auto.
Qed.

(** X6: any two integers, plain or held by one of the four integer-backed
    classes in any mix, are compared by value: [==] and [<] return the
    comparison of the two integers (also when the right operand's class
    derives from the left one's and its reflected method runs first). *)
Theorem X6_integers_compare_numerically (v w : value) (n m : Z)
    (Iv : as_int v = Some n) (Iw : as_int w = Some m) :
  op_eq v w = Ok (n =? m) /\ op_lt v w = Ok (n <? m).
Proof.
  destruct v as [?|[]]; try discriminate; injection Iv as ->;
    destruct w as [?|[]]; try discriminate; injection Iw as ->;
    cbn; rewrite ?Z.gtb_ltb, ?(Z.eqb_sym m n); split; reflexivity.
Qed.

Lemma X6_integers_compare_numerically_witness :
  op_eq (VInt 7) (DNToken 7) = Ok true /\ op_lt (VInt 7) (DNToken 7) = Ok false.
Proof.
  exact (X6_integers_compare_numerically (VInt 7) (DNToken 7) 7 7 eq_refl eq_refl).
Defined.

(** X7: a process, thread, dynamic or token-offset address cannot be
    compared for equality with a plain integer: from either side the
    address's own [__eq__] runs and raises ([AssertionError] from the
    [isinstance] guard, [AttributeError] from the attribute access). *)
Theorem X7_plain_integer_against_other_addresses (a : Address) (n : Z)
    (I : as_int (VAddr a) = None) (N : is_sentinel a = false) :
  op_eq a (VInt n) = Raise (foreign_operand_error a)
  /\ op_eq (VInt n) a = Raise (foreign_operand_error a).
Proof.
  destruct a; try discriminate; split; reflexivity.
Qed.

Lemma X7_plain_integer_against_other_addresses_witness :
  op_eq (Thread {| process := {| ppid := 0; pid := 1 |}; tid := 0 |}) (VInt 0)
  = Raise AssertionError
  /\ op_eq (VInt 0) (Thread {| process := {| ppid := 0; pid := 1 |}; tid := 0 |})
     = Raise AssertionError.
Proof.
  exact (X7_plain_integer_against_other_addresses
           (Thread {| process := {| ppid := 0; pid := 1 |}; tid := 0 |}) 0
           eq_refl eq_refl).
Defined.

(** ** The derived index *)

(** X8: [DNTokenOffsetAddress.__index__] does not identify the address:
    every constructed token-offset address shares its index with another
    constructed one (token one less, offset one more) that is not equal to
    it and sorts before it. *)
Theorem X8_index_is_shared (d : DNTokenOffsetAddress)
    (K : constructed (DNTokenOffset d) = true) :
  exists e : DNTokenOffsetAddress,
    constructed (DNTokenOffset e) = true
    /\ DNTokenOffsetAddress.__index__ e = DNTokenOffsetAddress.__index__ d
    /\ op_eq (DNTokenOffset d) (DNTokenOffset e) = Ok false
    /\ op_lt (DNTokenOffset e) (DNTokenOffset d) = Ok true.
Proof.
  exists {| token := token d - 1; offset := offset d + 1 |}.
  cbn in K. apply Z.geb_le in K.
  split; [cbn; apply Z.geb_le; lia|].
  split; [unfold DNTokenOffsetAddress.__index__; cbn; lia|].
  split.
  - unfold_methods. rewrite tuple_eq_ints. f_equal. cbn.
    destruct (Z.eqb_spec (token d) (token d - 1)); [lia | reflexivity].
  - unfold_methods. rewrite tuple_lt_ints. f_equal. cbn.
    destruct (Z.ltb_spec (token d - 1) (token d)); [reflexivity | lia].
Qed.

Lemma X8_index_is_shared_witness :
  exists e : DNTokenOffsetAddress,
    constructed (DNTokenOffset e) = true
    /\ DNTokenOffsetAddress.__index__ e = 0x06000011
    /\ op_eq (DNTokenOffset {| token := 0x06000001; offset := 0x10 |}) (DNTokenOffset e)
       = Ok false
    /\ op_lt (DNTokenOffset e) (DNTokenOffset {| token := 0x06000001; offset := 0x10 |})
       = Ok true.
Proof.
  exact (X8_index_is_shared {| token := 0x06000001; offset := 0x10 |} eq_refl).
Defined.

(** ** Rendering *)

Lemma append_cancel_l (p s t : string) : (p ++ s)%string = (p ++ t)%string -> s = t.
Proof.
  induction p as [|ch p IH]; cbn; [trivial|]. intros E. injection E as E. auto.
Qed.

Lemma split_at_delimiter (c : ascii) (s1 s2 r1 r2 : string) :
  lower_hex_char c = false ->
  all_chars lower_hex_char s1 = true -> all_chars lower_hex_char s2 = true ->
  (s1 ++ String c r1)%string = (s2 ++ String c r2)%string ->
  s1 = s2 /\ r1 = r2.
Proof.
  intros Hc. revert s2.
  induction s1 as [|x s1 IH]; intros [|y s2] A1 A2 E; cbn in *.
  - injection E as E. auto.
  - injection E as E1 E2. subst y. rewrite Hc in A2. discriminate.
  - injection E as E1 E2. subst x. rewrite Hc in A1. discriminate.
  - injection E as E1 E2. subst y.
    apply andb_true_iff in A1 as [_ A1]. apply andb_true_iff in A2 as [_ A2].
    destruct (IH s2 A1 A2 E2) as [-> ->]. auto.
Qed.

Lemma decimal_digits_lowercase (d : Decimal.uint) :
  all_chars lower_hex_char (DecimalString.NilEmpty.string_of_uint d) = true.
Proof.
  induction d; cbn; trivial.
Qed.

Lemma str_lowercase (n : Z) : all_chars lower_hex_char (int.__str__ n) = true.
Proof.
  unfold int.__str__, DecimalString.NilZero.string_of_int,
    DecimalString.NilZero.string_of_uint.
  destruct (Z.to_int n) as [d|d]; destruct d eqn:E; try reflexivity;
    rewrite <- E; cbn [all_chars lower_hex_char andb]; apply decimal_digits_lowercase.
Qed.

Lemma format_x_inj (v w : Z) : int.format_x v = int.format_x w -> v = w.
Proof.
  intros E. apply (f_equal int.parse_x) in E.
  rewrite !format_x_parse in E. now injection E.
Qed.

Lemma str_inj (v w : Z) : int.__str__ v = int.__str__ w -> v = w.
Proof.
  assert (ok : forall n, Z.to_int n <> Decimal.Pos Decimal.Nil
                         /\ Z.to_int n <> Decimal.Neg Decimal.Nil).
  { intros [|p|p]; cbn; split; try discriminate;
      intros E; injection E; apply DecimalPos.Unsigned.to_uint_nonnil. }
  unfold int.__str__. intros E.
  apply (f_equal DecimalString.NilZero.int_of_string) in E.
  rewrite !DecimalString.NilZero.isi in E by apply ok.
  injection E as E. now apply DecimalZ.to_int_inj.
Qed.

(** A numeral followed by a delimiter determines the numeral and the rest. *)
Lemma hex_then_delimiter (c : ascii) (v w : Z) (r1 r2 : string) :
  lower_hex_char c = false ->
  (int.format_x v ++ String c r1)%string = (int.format_x w ++ String c r2)%string ->
  v = w /\ r1 = r2.
Proof.
  intros Hc E.
  destruct (split_at_delimiter c _ _ _ _ Hc (format_x_lowercase v) (format_x_lowercase w) E)
    as [Ev Er].
  split; [now apply format_x_inj | assumption].
Qed.

Lemma str_then_delimiter (c : ascii) (v w : Z) (r1 r2 : string) :
  lower_hex_char c = false ->
  (int.__str__ v ++ String c r1)%string = (int.__str__ w ++ String c r2)%string ->
  v = w /\ r1 = r2.
Proof.
  intros Hc E.
  destruct (split_at_delimiter c _ _ _ _ Hc (str_lowercase v) (str_lowercase w) E)
    as [Ev Er].
  split; [now apply str_inj | assumption].
Qed.

Lemma String_tail (c : ascii) (s t : string) : String c s = String c t -> s = t.
Proof.
  now injection 1.
Qed.

Ltac unfold_repr H :=
  unfold repr, AbsoluteVirtualAddress.__repr__, ProcessAddress.__repr__,
    ThreadAddress.__repr__, DynamicAddress.__repr__, RelativeVirtualAddress.__repr__,
    FileOffsetAddress.__repr__, DNTokenAddress.__repr__,
    DNTokenOffsetAddress.__repr__, _NoAddress.__repr__ in H;
  cbn [append] in H; rewrite ?append_assoc in H; cbn [append] in H.

Ltac strip H := repeat apply String_tail in H.


(** X10: the renderings tell constructed addresses apart.  Two constructed
    addresses with the same [repr] are of the same variant, and unless they
    are threads they are the same address (fields included). *)
Theorem X10_rendering_identifies_the_address (a b : Address)
    (Ka : constructed a = true) (Kb : constructed b = true)
    (R : repr a = repr b) :
  same_variant a b = true /\ (class_of a <> cls_ThreadAddress -> a = b).
Proof.
  destruct a as [v|p|t|d|v|v|v|d|], b as [w|q|u|e|w|w|w|e|];
    unfold_repr R; try discriminate R; strip R.
  1, 5, 6, 7: (apply hex_then_delimiter in R; [|reflexivity];
               destruct R as [-> _]; split; reflexivity).
  - (* process *)
    destruct p as [pp1 p1], q as [pp2 p2]; cbn in Ka, Kb, R.
    unfold process_ok in Ka, Kb; cbn in Ka, Kb.
    apply andb_true_iff in Ka as [Ka _]. apply andb_true_iff in Kb as [Kb _].
    apply Z.geb_le in Ka, Kb.
    split; [reflexivity|]. intros _.
    destruct (Z.gtb_spec pp1 0), (Z.gtb_spec pp2 0);
      cbn [append] in R; rewrite ?append_assoc in R; cbn [append] in R;
      try discriminate R; strip R.
    + apply str_then_delimiter in R; [|reflexivity]. destruct R as [-> R].
      strip R. apply str_then_delimiter in R; [|reflexivity].
      destruct R as [-> _]. reflexivity.
    + apply str_then_delimiter in R; [|reflexivity]. destruct R as [-> _].
      do 2 f_equal. lia.
  - (* thread *)
    split; [reflexivity|]. intros NT. now contradiction NT.
  - (* dynamic *)
    destruct d as [i1 r1], e as [i2 r2]; cbn in R.
    apply str_then_delimiter in R; [|reflexivity]. destruct R as [-> R].
    strip R. apply hex_then_delimiter in R; [|reflexivity].
    destruct R as [-> _]. split; reflexivity.
  - (* token against token-offset *)
    apply hex_then_delimiter in R; [|reflexivity]. destruct R as [_ R]. discriminate R.
  - apply hex_then_delimiter in R; [|reflexivity]. destruct R as [_ R]. discriminate R.
  - (* token-offset *)
    destruct d as [t1 o1], e as [t2 o2]; cbn in R.
    apply hex_then_delimiter in R; [|reflexivity]. destruct R as [-> R].
    strip R. apply hex_then_delimiter in R; [|reflexivity].
    destruct R as [-> _]. split; reflexivity.
  - split; reflexivity.
Qed.

Lemma X10_rendering_identifies_the_address_witness :
  same_variant (Process {| ppid := 0; pid := 5 |}) (Process {| ppid := 0; pid := 5 |}) = true
  /\ (class_of (Process {| ppid := 0; pid := 5 |}) <> cls_ThreadAddress ->
      Process {| ppid := 0; pid := 5 |} = Process {| ppid := 0; pid := 5 |}).
Proof.
  exact (X10_rendering_identifies_the_address
           (Process {| ppid := 0; pid := 5 |}) (Process {| ppid := 0; pid := 5 |})
           eq_refl eq_refl eq_refl).
Defined.

(** ** Equality through the sentinel *)

(** X11: with the sentinel in the middle [==] is not transitive: any two
    integer-backed addresses holding different integers both equal
    [NO_ADDRESS] ([a == NO_ADDRESS] and [NO_ADDRESS == c] are true) while
    [a == c] is false. *)
Theorem X11_equality_not_transitive_through_sentinel (a c : Address) (n m : Z)
    (Ia : as_int (VAddr a) = Some n) (Ic : as_int (VAddr c) = Some m) (D : n <> m) :
  op_eq a NO_ADDRESS = Ok true
  /\ op_eq NO_ADDRESS c = Ok true
  /\ op_eq a c = Ok false.
Proof.
  apply Z.eqb_neq in D.
  destruct a; try discriminate; injection Ia as ->;
    destruct c; try discriminate; injection Ic as ->;
    cbn; rewrite D; repeat split.
Qed.

Lemma X11_equality_not_transitive_through_sentinel_witness :
  op_eq (Absolute 1) NO_ADDRESS = Ok true
  /\ op_eq NO_ADDRESS (FileOffset 2) = Ok true
  /\ op_eq (Absolute 1) (FileOffset 2) = Ok false.
Proof.
  apply (X11_equality_not_transitive_through_sentinel (Absolute 1) (FileOffset 2) 1 2);
    [reflexivity | reflexivity | lia].
Defined.

Lemma X5_ordering_errors_witness :
  op_lt (Relative 3) NO_ADDRESS = Raise TypeError.
Proof.
  apply (proj1 (X5_ordering_errors (Relative 3) NO_ADDRESS)).
  split; [discriminate | reflexivity].
Defined.

